(** * BarcodeMaker3x5: the PNG export pipeline

    A shallow embedding of the React component [BarcodeMaker3x5]
    (operations [renderBarcode] and [exportPNG]) together with the
    pixel arithmetic that [exportPNG] performs on JavaScript numbers.

    JavaScript numbers are IEEE 754 binary64 values.  The arithmetic of
    the component is written once, over an interface [JSNumber], and
    instantiated twice:
    - [binary64]: Rocq's primitive floats, i.e. the numbers the program
      really computes with (including NaN, infinities and signed zero);
    - [exact]: rational numbers, the reading in which the formulas of the
      specification are stated, free of rounding error.

    The component runs inside a browser.  Its [useState] cells and its
    [svgRef] form the state, together with the browser's store of
    object URLs and a log of the calls made; the barcode encoder and
    the browser's serializer, image decoder, canvas and PNG encoder are
    parameters ([Browser]).  An operation is run from start to end: the
    two [await]s of [exportPNG] are sequence points, and no other
    operation runs in between.  *)

From Stdlib Require Import ZArith QArith Qround Qminmax Qabs Lqa Lia List Bool.
From Stdlib Require Import Floats SpecFloat.
From stdpp Require Import base option strings pretty gmap.

Set Default Proof Using "Type".
Set Warnings "-inexact-float,-register-all".

(* ------------------------------------------------------------------ *)
(** ** JavaScript numbers *)

Class JSNumber (Num : Type) := {
  of_Z : Z -> Num;            (* an integer literal or an integer DOM attribute *)
  lit_2_54 : Num;             (* the literal 2.54 *)
  lit_0_04 : Num;             (* the literal 0.04 *)
  mul : Num -> Num -> Num;    (* a * b *)
  div : Num -> Num -> Num;    (* a / b *)
  sub : Num -> Num -> Num;    (* a - b *)
  Math_min : Num -> Num -> Num;
  Math_round : Num -> Num;
}.

Declare Scope js_scope.
Delimit Scope js_scope with js.
Infix "*" := mul : js_scope.
Infix "/" := div : js_scope.
Infix "-" := sub : js_scope.

Module Exact.

(** [Math.round]: the nearest integer, a tie going towards +infinity. *)
Definition round_half_up (x : Q) : Z := Qfloor (x + (1 # 2)).

Definition round (x : Q) : Q := inject_Z (round_half_up x).

#[export] Instance exact : JSNumber Q := {|
  of_Z := inject_Z;
  lit_2_54 := 254 # 100;
  lit_0_04 := 4 # 100;
  mul := Qmult;
  div := Qdiv;
  sub := Qminus;
  Math_min := Qmin;
  Math_round := round;
|}.

End Exact.

Module Binary64.

(** The integer [z] as the nearest binary64 value. *)
Definition of_int (z : Z) : float :=
  SF2Prim (binary_normalize prec emax z 0 false).

(** [Math.min]: NaN if either argument is NaN, and -0 below +0. *)
Definition min (a b : float) : float :=
  if PrimFloat.is_nan a then a
  else if PrimFloat.is_nan b then b
  else if PrimFloat.ltb a b then a
  else if PrimFloat.ltb b a then b
  else if PrimFloat.get_sign a then a else b.

(** [Math.round]: NaN, infinities and zeros are returned unchanged; a
    finite value [(-1)^s * m * 2^e] is already an integer when
    [0 <= e]; otherwise the result is [floor(x + 1/2)], computed
    exactly on the integer mantissa, and a zero result keeps the sign
    of [x]. *)
Definition round (x : float) : float :=
  match Prim2SF x with
  | S754_finite s m e =>
      if (0 <=? e)%Z then x
      else
        let d := Z.pow_pos 2 (Z.to_pos (- e)) in
        let n := if s then Z.neg m else Z.pos m in
        let r := ((2 * n + d) / (2 * d))%Z in
        if (r =? 0)%Z then (if s then (-0)%float else 0%float) else of_int r
  | _ => x
  end.

#[export] Instance binary64 : JSNumber float := {|
  of_Z := of_int;
  lit_2_54 := 2.54%float;
  lit_0_04 := 0.04%float;
  mul := PrimFloat.mul;
  div := PrimFloat.div;
  sub := PrimFloat.sub;
  Math_min := min;
  Math_round := round;
|}.

End Binary64.

Import Exact Binary64.

Section Geometry.
Context {Num : Type} `{JSNumber Num}.
Local Open Scope js_scope.

(** Lines 70-72 of [exportPNG]: the pixel size of the canvas. *)
Definition computeCanvasPx (widthCm heightCm dpi : Num) : Num * Num :=
  let pxPerCm := dpi / lit_2_54 in
  let w := Math_round (widthCm * pxPerCm) in
  let h := Math_round (heightCm * pxPerCm) in
  (w, h).

(** Lines 102-111 of [exportPNG]: where and how large the decoded
    image is drawn on a canvas of [w] by [h] pixels. *)
Record Geometry := {
  pad : Num;
  drawW : Num;
  drawH : Num;
  scale : Num;
  finalW : Num;
  finalH : Num;
  dx : Num;
  dy : Num;
}.

Definition computeGeometry (w h img_width img_height : Num) : Geometry :=
  let pad := Math_round (Math_min w h * lit_0_04) in
  let drawW := w - pad * of_Z 2 in
  let drawH := h - pad * of_Z 2 in
  let scale := Math_min (drawW / img_width) (drawH / img_height) in
  let finalW := Math_round (img_width * scale) in
  let finalH := Math_round (img_height * scale) in
  let dx := Math_round ((w - finalW) / of_Z 2) in
  let dy := Math_round ((h - finalH) / of_Z 2) in
  {| pad := pad; drawW := drawW; drawH := drawH; scale := scale;
     finalW := finalW; finalH := finalH; dx := dx; dy := dy |}.

End Geometry.

Arguments Geometry Num : clear implicits.

(** Physical size (cm): the constants [widthCm] and [heightCm]. *)
Definition widthCm : Z := 5.
Definition heightCm : Z := 3.

(* ------------------------------------------------------------------ *)
(** ** The browser and the component state *)

(** Object URLs (the strings returned by [URL.createObjectURL]) are
    numbered in the order of their creation. *)
Abbreviation URL := nat.

Record Blob := { blob_type : string; blob_data : string }.

(** An [<svg>] element, as the markup of its content; a freshly created
    element is empty. *)
Abbreviation SvgElement := string.

(** A loaded [Image]: the resource it was decoded from and its
    intrinsic size ([img.width] and [img.height] are integers). *)
Record Image := { img_src : Blob; img_width : Z; img_height : Z }.

Inductive DrawOp (Num : Type) :=
| FillRect (fillStyle : string) (x y w h : Num)
| DrawImage (img : Image) (dx dy dw dh : Num).
Arguments FillRect {Num}.
Arguments DrawImage {Num}.

Record Canvas (Num : Type) := {
  canvas_width : Num;
  canvas_height : Num;
  canvas_ops : list (DrawOp Num);   (* oldest first *)
}.
Arguments canvas_width {Num}.
Arguments canvas_height {Num}.
Arguments canvas_ops {Num}.

(** The options object passed to [JsBarcode]. *)
Record BarcodeOptions := {
  opt_format : string;
  opt_displayValue : bool;
  opt_width : Z;
  opt_height : Z;
  opt_margin : Z;
  opt_fontSize : Z;
}.

(** What the component relies on but does not implement: the barcode
    encoder and the browser's serializer, image decoder, canvas and PNG
    encoder.  Each is a function of its arguments; [None] and [false]
    stand for the failure of the call. *)
Record Browser (Num : Type) := {
  JsBarcode : string -> BarcodeOptions -> option SvgElement;  (* None: throws *)
  serializeToString : SvgElement -> string;
  decodeImage : Blob -> option (Z * Z);          (* None: img.onerror fires *)
  getContext2d : Num -> Num -> bool;             (* false: getContext returns null *)
  drawImage_ok : Canvas Num -> Image -> bool;    (* false: drawImage throws *)
  toBlob : Canvas Num -> option Blob;            (* None: the callback receives null *)
}.
Arguments JsBarcode {Num}.
Arguments serializeToString {Num}.
Arguments decodeImage {Num}.
Arguments getContext2d {Num}.
Arguments drawImage_ok {Num}.
Arguments toBlob {Num}.

(** The calls that reach outside the component's own variables, newest
    first in [log]. *)
Inductive Event (Num : Type) :=
| EvSetError (msg : string)
| EvSetDownloadUrl (u : URL)
| EvConsoleError
| EvNewBlob (b : Blob)
| EvCreateObjectURL (u : URL)
| EvRevokeObjectURL (u : URL)
| EvNewImage
| EvCreateCanvas
| EvToBlob (canvas : Canvas Num).
Arguments EvSetError {Num}.
Arguments EvSetDownloadUrl {Num}.
Arguments EvConsoleError {Num}.
Arguments EvNewBlob {Num}.
Arguments EvCreateObjectURL {Num}.
Arguments EvRevokeObjectURL {Num}.
Arguments EvNewImage {Num}.
Arguments EvCreateCanvas {Num}.
Arguments EvToBlob {Num}.

(** The [useState] cells and the [svgRef] of the component, and the
    browser's store of object URLs.  [downloadUrl = None] is the empty
    string; [svgRef = None] is [svgRef.current === null], otherwise the
    children of the preview container. *)
Record State (Num : Type) := {
  value : string;
  format : string;
  dpi : Num;
  includeText : bool;
  downloadUrl : option URL;
  error : string;
  svgRef : option (list SvgElement);
  objectURLs : gmap URL Blob;
  nextURL : URL;
  log : list (Event Num);
}.
Arguments value {Num}.
Arguments format {Num}.
Arguments dpi {Num}.
Arguments includeText {Num}.
Arguments downloadUrl {Num}.
Arguments error {Num}.
Arguments svgRef {Num}.
Arguments objectURLs {Num}.
Arguments nextURL {Num}.
Arguments log {Num}.

(* ------------------------------------------------------------------ *)
(** ** State and exceptions *)

Inductive Exn := ImageLoadError | TypeError | CanvasError | BarcodeError.

Inductive Result (A : Type) :=
| Ok (a : A)
| Throw (e : Exn).
Arguments Ok {A}.
Arguments Throw {A}.

Section Component.
Context {Num : Type} `{JSNumber Num}.

Definition M (A : Type) : Type := State Num -> Result A * State Num.

Definition ret {A} (a : A) : M A := fun s => (Ok a, s).

Definition bind {A B} (m : M A) (k : A -> M B) : M B :=
  fun s => match m s with
           | (Ok a, s') => k a s'
           | (Throw e, s') => (Throw e, s')
           end.

Definition throw {A} (e : Exn) : M A := fun s => (Throw e, s).

(** [try { body } catch (e) { handler }] *)
Definition try_catch {A} (body : M A) (handler : Exn -> M A) : M A :=
  fun s => match body s with
           | (Ok a, s') => (Ok a, s')
           | (Throw e, s') => handler e s'
           end.

Definition get : M (State Num) := fun s => (Ok s, s).

Definition emit (ev : Event Num) : M unit :=
  fun s => (Ok tt,
    {| value := value s; format := format s; dpi := dpi s;
       includeText := includeText s; downloadUrl := downloadUrl s;
       error := error s; svgRef := svgRef s;
       objectURLs := objectURLs s; nextURL := nextURL s;
       log := ev :: log s |}).

Definition write_error (msg : string) : M unit :=
  fun s => (Ok tt,
    {| value := value s; format := format s; dpi := dpi s;
       includeText := includeText s; downloadUrl := downloadUrl s;
       error := msg; svgRef := svgRef s;
       objectURLs := objectURLs s; nextURL := nextURL s;
       log := log s |}).

Definition write_downloadUrl (u : option URL) : M unit :=
  fun s => (Ok tt,
    {| value := value s; format := format s; dpi := dpi s;
       includeText := includeText s; downloadUrl := u;
       error := error s; svgRef := svgRef s;
       objectURLs := objectURLs s; nextURL := nextURL s;
       log := log s |}).

Definition write_children (children : list SvgElement) : M unit :=
  fun s => (Ok tt,
    {| value := value s; format := format s; dpi := dpi s;
       includeText := includeText s; downloadUrl := downloadUrl s;
       error := error s; svgRef := Some children;
       objectURLs := objectURLs s; nextURL := nextURL s;
       log := log s |}).

Definition write_objectURLs (m : gmap URL Blob) (next : URL) : M unit :=
  fun s => (Ok tt,
    {| value := value s; format := format s; dpi := dpi s;
       includeText := includeText s; downloadUrl := downloadUrl s;
       error := error s; svgRef := svgRef s;
       objectURLs := m; nextURL := next;
       log := log s |}).

End Component.

Arguments M Num A : clear implicits.

Declare Scope comp_scope.
Delimit Scope comp_scope with comp.
Notation "x ← y ; z" := (bind y (fun x => z))
  (at level 20, y at level 100, z at level 200, only parsing) : comp_scope.
Notation "x ;; z" := (bind x (fun _ => z))
  (at level 100, z at level 200, only parsing, right associativity) : comp_scope.

Definition export_failed_msg : string :=
  "Export failed. Try reducing DPI or changing the barcode format.".

(* ------------------------------------------------------------------ *)
(** ** The operations of the component *)

Section Operations.
Context {Num : Type} `{JSNumber Num} (br : Browser Num).
Local Open Scope comp_scope.

Definition setError (msg : string) : M Num unit :=
  write_error msg ;; emit (EvSetError msg).

Definition setDownloadUrl (u : URL) : M Num unit :=
  write_downloadUrl (Some u) ;; emit (EvSetDownloadUrl u).

Definition console_error : M Num unit := emit EvConsoleError.

(** [new Blob([data], { type })] *)
Definition newBlob (data type : string) : M Num Blob :=
  let b := {| blob_type := type; blob_data := data |} in
  emit (EvNewBlob b) ;; ret b.

(** [URL.createObjectURL(blob)]; a null argument is a TypeError. *)
Definition createObjectURL (blob : option Blob) : M Num URL :=
  match blob with
  | None => throw TypeError
  | Some b =>
      s ← get;
      let u := nextURL s in
      write_objectURLs (<[u := b]> (objectURLs s)) (S u) ;;
      emit (EvCreateObjectURL u) ;;
      ret u
  end.

(** [URL.revokeObjectURL(u)] *)
Definition revokeObjectURL (u : URL) : M Num unit :=
  s ← get;
  write_objectURLs (delete u (objectURLs s)) (nextURL s) ;;
  emit (EvRevokeObjectURL u).

(** [const img = new Image(); img.src = url; await imgLoad]: the
    promise is rejected when the URL does not resolve or the resource
    does not decode. *)
Definition loadImage (url : URL) : M Num Image :=
  emit EvNewImage ;;
  s ← get;
  match objectURLs s !! url with
  | None => throw ImageLoadError
  | Some b =>
      match decodeImage br b with
      | None => throw ImageLoadError
      | Some (iw, ih) =>
          ret {| img_src := b; img_width := iw; img_height := ih |}
      end
  end.

(** [document.createElement("canvas")], then the two size assignments. *)
Definition createCanvas (w h : Num) : M Num (Canvas Num) :=
  emit EvCreateCanvas ;;
  ret {| canvas_width := w; canvas_height := h; canvas_ops := [] |}.

(** [canvas.getContext("2d")]; using a null context is a TypeError. *)
Definition getContext (canvas : Canvas Num) : M Num unit :=
  if getContext2d br (canvas_width canvas) (canvas_height canvas)
  then ret tt else throw TypeError.

Definition paint (canvas : Canvas Num) (op : DrawOp Num) : Canvas Num :=
  {| canvas_width := canvas_width canvas;
     canvas_height := canvas_height canvas;
     canvas_ops := canvas_ops canvas ++ [op] |}.

Definition drawImage (canvas : Canvas Num) (img : Image) (g : Geometry Num)
  : M Num (Canvas Num) :=
  if drawImage_ok br canvas img
  then ret (paint canvas (DrawImage img (dx g) (dy g) (finalW g) (finalH g)))
  else throw CanvasError.

(** [svgRef.current.querySelector("svg")]: the first [<svg>] below
    the container, whose children are all [<svg>] elements. *)
Definition querySelector_svg (children : list SvgElement) : option SvgElement :=
  head children.

(** [while (c.firstChild) c.removeChild(c.firstChild)] *)
Fixpoint removeAllChildren (children : list SvgElement) : list SvgElement :=
  match children with
  | [] => []
  | _ :: rest => removeAllChildren rest
  end.

Definition appendChild (svg : SvgElement) : M Num nat :=
  s ← get;
  let children := default [] (svgRef s) in
  write_children (children ++ [svg]) ;;
  ret (length children).

(** [value || " "] *)
Definition or_else (v d : string) : string :=
  match v with
  | EmptyString => d
  | _ => v
  end.

(** [JsBarcode(svg, data, options)] fills the element at position
    [i] of the container, or throws and leaves it as it is. *)
Definition callJsBarcode (i : nat) (data : string) (opts : BarcodeOptions)
  : M Num unit :=
  match JsBarcode br data opts with
  | None => throw BarcodeError
  | Some svg' =>
      s ← get;
      write_children (<[i := svg']> (default [] (svgRef s)))
  end.

Definition renderBarcode : M Num unit :=
  setError "" ;;
  s ← get;
  match svgRef s with
  | None => ret tt
  | Some children =>
      try_catch
        (write_children (removeAllChildren children) ;;
         i ← appendChild "";
         callJsBarcode i (or_else (value s) " ")
           {| opt_format := format s;
              opt_displayValue := includeText s;
              opt_width := 2;
              opt_height := 60;
              opt_margin := 8;
              opt_fontSize := 14 |})
        (fun e =>
           console_error ;;
           setError "Unable to render barcode with the current settings.")
  end.

(** [await new Promise((res) => canvas.toBlob(res, "image/png", 1))] *)
Definition canvas_toBlob (canvas : Canvas Num) : M Num (option Blob) :=
  emit (EvToBlob canvas) ;;
  ret (toBlob br canvas).

(** The body of the [try] block of [exportPNG]. *)
Definition rasterize (url : URL) (w h : Num) : M Num unit :=
  img ← loadImage url;
  canvas ← createCanvas w h;
  getContext canvas ;;
  let canvas :=
    paint canvas (FillRect "#ffffff" (of_Z 0) (of_Z 0)
                    (canvas_width canvas) (canvas_height canvas)) in
  let g := computeGeometry w h (of_Z (img_width img)) (of_Z (img_height img)) in
  canvas ← drawImage canvas img g;
  pngBlob ← canvas_toBlob canvas;
  pngUrl ← createObjectURL pngBlob;
  setDownloadUrl pngUrl ;;
  revokeObjectURL url.

Definition exportPNG : M Num unit :=
  setError "" ;;
  s ← get;
  match svgRef s with
  | None => setError "No barcode to export."
  | Some children =>
      match querySelector_svg children with
      | None => setError "SVG not found."
      | Some svgEl =>
          let size := computeCanvasPx (of_Z widthCm) (of_Z heightCm) (dpi s) in
          let w := size.1 in
          let h := size.2 in
          let svgString := serializeToString br svgEl in
          svgBlob ← newBlob svgString "image/svg+xml;charset=utf-8";
          url ← createObjectURL (Some svgBlob);
          try_catch (rasterize url w h)
            (fun e =>
               console_error ;;
               setError "Export failed. Try reducing DPI or changing the barcode format." ;;
               revokeObjectURL url)
      end
  end.

(** The state in which an operation leaves the component. *)
Definition run (op : M Num unit) (s : State Num) : State Num := (op s).2.

(** *** The export as the specification describes it

    One attempt goes through Serializing, Rasterizing and Encoding and
    ends in Ready or in Failed; [pipeline] is that description as a
    function of the resolution and of the symbol, to which [exportPNG]
    is compared below. *)

Inductive Stage := Decoding | Allocating | Drawing | Encoding.

Inductive ExportResult :=
| Ready (png : Blob)
| Failed (at_stage : Stage).

Definition snapshot (svgEl : SvgElement) : Blob :=
  {| blob_type := "image/svg+xml;charset=utf-8";
     blob_data := serializeToString br svgEl |}.

Definition background (w h : Num) : Canvas Num :=
  {| canvas_width := w; canvas_height := h;
     canvas_ops := [FillRect "#ffffff" (of_Z 0) (of_Z 0) w h] |}.

Definition composite (w h : Num) (img : Image) : Canvas Num :=
  let g := computeGeometry w h (of_Z (img_width img)) (of_Z (img_height img)) in
  {| canvas_width := w; canvas_height := h;
     canvas_ops := [FillRect "#ffffff" (of_Z 0) (of_Z 0) w h;
                    DrawImage img (dx g) (dy g) (finalW g) (finalH g)] |}.

Definition pipeline (dpi : Num) (svgEl : SvgElement) : ExportResult :=
  let size := computeCanvasPx (of_Z widthCm) (of_Z heightCm) dpi in
  match decodeImage br (snapshot svgEl) with
  | None => Failed Decoding
  | Some (iw, ih) =>
      let img := {| img_src := snapshot svgEl; img_width := iw; img_height := ih |} in
      if negb (getContext2d br size.1 size.2) then Failed Allocating
      else if negb (drawImage_ok br (background size.1 size.2) img) then Failed Drawing
      else match toBlob br (composite size.1 size.2 img) with
           | None => Failed Encoding
           | Some png => Ready png
           end
  end.

(** The PNG that the download button currently points to. *)
Definition download (s : State Num) : option Blob :=
  match downloadUrl s with
  | Some u => objectURLs s !! u
  | None => None
  end.

(** Every live object URL was handed out by [createObjectURL]. *)
Definition wf (s : State Num) : Prop :=
  ∀ u : URL, is_Some (objectURLs s !! u) → u < nextURL s.

(** The state after an attempt on the symbol [svgEl] with result [r],
    [events] being the calls made since the attempt began. *)
Definition after_export (s : State Num) (svgEl : SvgElement)
  (r : ExportResult) (events : list (Event Num)) : State Num :=
  let u := nextURL s in
  match r with
  | Ready png =>
      {| value := value s; format := format s; dpi := dpi s;
         includeText := includeText s;
         downloadUrl := Some (S u);
         error := "";
         svgRef := svgRef s;
         objectURLs :=
           delete u (<[S u := png]> (<[u := snapshot svgEl]> (objectURLs s)));
         nextURL := S (S u);
         log := events ++ log s |}
  | Failed _ =>
      {| value := value s; format := format s; dpi := dpi s;
         includeText := includeText s;
         downloadUrl := downloadUrl s;
         error := export_failed_msg;
         svgRef := svgRef s;
         objectURLs := delete u (<[u := snapshot svgEl]> (objectURLs s));
         nextURL := S u;
         log := events ++ log s |}
  end.

(** The options that [renderBarcode] passes to the encoder. *)
Definition render_options (s : State Num) : BarcodeOptions :=
  {| opt_format := format s;
     opt_displayValue := includeText s;
     opt_width := 2;
     opt_height := 60;
     opt_margin := 8;
     opt_fontSize := 14 |}.




End Operations.

(* ------------------------------------------------------------------ *)
(** ** Evaluation on binary64 numbers *)

















(** *** A browser and the states of a session *)

(** A browser in which every call succeeds, except that the image
    decodes as [decoded] says and the encoder rejects the format EAN13. *)
Definition test_browser (decoded : option (Z * Z)) : Browser float :=
  {| JsBarcode := fun data opts =>
       if String.eqb (opt_format opts) "EAN13" then None else Some data;
     serializeToString := fun svgEl => svgEl;
     decodeImage := fun _ => decoded;
     getContext2d := fun _ _ => true;
     drawImage_ok := fun _ _ => true;
     toBlob := fun _ => Some {| blob_type := "image/png"; blob_data := "PNG" |} |}.

(** The component once mounted: the initial [useState] values and an
    empty preview container. *)
Definition initial_state : State float :=
  {| value := "ABC-12345"; format := "CODE128"; dpi := 300%float;
     includeText := true; downloadUrl := None; error := "";
     svgRef := Some []; objectURLs := ∅; nextURL := 0; log := [] |}.

Definition rendered_state : State float :=
  run (renderBarcode (test_browser (Some (214, 92)%Z))) initial_state.

Definition exported_state : State float :=
  run (exportPNG (test_browser (Some (214, 92)%Z))) rendered_state.

(* ------------------------------------------------------------------ *)
(** ** The page: form handlers, the effect and the download *)

(** What [document.body] holds, and the anchor that [handleDownload]
    adds to it for a moment. *)
Inductive BodyNode :=
| Anchor (href : URL) (download_attr : string)
| OtherNode (name : string).

(** A file saved by the browser: the name the anchor suggests and what
    its URL resolved to when it was clicked ([None]: nothing). *)
Record SavedFile := { file_name : string; file_content : option Blob }.

Record Page (Num : Type) := {
  component : State Num;
  body : list BodyNode;
  saved : list SavedFile;            (* oldest first *)
}.
Arguments component {Num}.
Arguments body {Num}.
Arguments saved {Num}.

(** What the user can do with the form and the buttons. *)
Inductive Action (Num : Type) :=
| ClickRender                        (* onClick={renderBarcode} *)
| ClickExport                        (* onClick={async () => { await exportPNG(); }} *)
| ClickDownload                      (* onClick={handleDownload} *)
| ChangeValue (v : string)           (* setValue(e.target.value) *)
| ChangeFormat (f : string)          (* setFormat(e.target.value) *)
| ChangeDpi (d : Num)                (* setDpi(Number(e.target.value)) *)
| ChangeIncludeText (b : bool).      (* setIncludeText(e.target.checked) *)
Arguments ClickRender {Num}.
Arguments ClickExport {Num}.
Arguments ClickDownload {Num}.
Arguments ChangeValue {Num}.
Arguments ChangeFormat {Num}.
Arguments ChangeDpi {Num}.
Arguments ChangeIncludeText {Num}.

Section PageOperations.
Context {Num : Type} `{JSNumber Num} (br : Browser Num).
Local Open Scope comp_scope.

Definition setValue (v : string) : M Num unit :=
  fun s => (Ok tt,
    {| value := v; format := format s; dpi := dpi s;
       includeText := includeText s; downloadUrl := downloadUrl s;
       error := error s; svgRef := svgRef s;
       objectURLs := objectURLs s; nextURL := nextURL s;
       log := log s |}).

Definition setFormat (f : string) : M Num unit :=
  fun s => (Ok tt,
    {| value := value s; format := f; dpi := dpi s;
       includeText := includeText s; downloadUrl := downloadUrl s;
       error := error s; svgRef := svgRef s;
       objectURLs := objectURLs s; nextURL := nextURL s;
       log := log s |}).

Definition setDpi (d : Num) : M Num unit :=
  fun s => (Ok tt,
    {| value := value s; format := format s; dpi := d;
       includeText := includeText s; downloadUrl := downloadUrl s;
       error := error s; svgRef := svgRef s;
       objectURLs := objectURLs s; nextURL := nextURL s;
       log := log s |}).

Definition setIncludeText (b : bool) : M Num unit :=
  fun s => (Ok tt,
    {| value := value s; format := format s; dpi := dpi s;
       includeText := b; downloadUrl := downloadUrl s;
       error := error s; svgRef := svgRef s;
       objectURLs := objectURLs s; nextURL := nextURL s;
       log := log s |}).

(** The dependencies [value, format, includeText] of the [useEffect],
    compared between two renders. *)
Definition deps_changed (before after : State Num) : bool :=
  negb (String.eqb (value before) (value after)) ||
  negb (String.eqb (format before) (format after)) ||
  negb (Bool.eqb (includeText before) (includeText after)).

(** A handler and the re-render that follows it: the effect calls
    [renderBarcode] when one of its dependencies has changed. *)
Definition with_effect (handler : M Num unit) : M Num unit :=
  before ← get;
  handler ;;
  after ← get;
  if deps_changed before after then renderBarcode br else ret tt.

(** The [useState] cells of the first render, with the preview
    container in place and no object URL yet. *)
Definition initial_cells : State Num :=
  {| value := "ABC-12345"; format := "CODE128"; dpi := of_Z 300;
     includeText := true; downloadUrl := None; error := "";
     svgRef := Some []; objectURLs := ∅; nextURL := 0; log := [] |}.

(** The component after its first render: the effect has run once. *)
Definition mount : State Num := run (renderBarcode br) initial_cells.

(** The template [`${value || "barcode"}_${widthCm}x${heightCm}cm.png`]. *)
Definition download_name (s : State Num) : string :=
  (or_else (value s) "barcode" ++ "_" ++ pretty widthCm ++ "x" ++
   pretty heightCm ++ "cm.png")%string.

Definition handleDownload (p : Page Num) : Page Num :=
  match downloadUrl (component p) with
  | None => p
  | Some u =>
      let a := Anchor u (download_name (component p)) in
      let position := length (body p) in
      (* document.body.appendChild(a) *)
      let body1 := body p ++ [a] in
      (* a.click() *)
      let saved1 :=
        saved p ++ [{| file_name := download_name (component p);
                       file_content := objectURLs (component p) !! u |}] in
      (* a.remove() *)
      let body2 := delete position body1 in
      {| component := component p; body := body2; saved := saved1 |}
  end.

Definition on_component (f : State Num -> State Num) (p : Page Num) : Page Num :=
  {| component := f (component p); body := body p; saved := saved p |}.

Definition step (a : Action Num) (p : Page Num) : Page Num :=
  match a with
  | ClickRender => on_component (run (renderBarcode br)) p
  | ClickExport => on_component (run (exportPNG br)) p
  | ClickDownload => handleDownload p
  | ChangeValue v => on_component (run (with_effect (setValue v))) p
  | ChangeFormat f => on_component (run (with_effect (setFormat f))) p
  | ChangeDpi d => on_component (run (with_effect (setDpi d))) p
  | ChangeIncludeText b => on_component (run (with_effect (setIncludeText b))) p
  end.

(** The page after a sequence of actions, the first one first. *)
Definition session (actions : list (Action Num)) (p : Page Num) : Page Num :=
  fold_left (fun q a => step a q) actions p.

Definition mounted_page (others : list BodyNode) : Page Num :=
  {| component := mount; body := others; saved := [] |}.

(** What the encoder draws for the current form fields; an empty
    element when it throws. *)
Definition preview (s : State Num) : SvgElement :=
  default "" (JsBarcode br (or_else (value s) " ") (render_options s)).

Definition is_setDownloadUrl (e : Event Num) : bool :=
  match e with
  | EvSetDownloadUrl _ => true
  | _ => false
  end.

(** How many exports have succeeded, by the log. *)
Definition exports_succeeded (s : State Num) : nat :=
  length (List.filter is_setDownloadUrl (log s)).

(** *** What holds in every state of a session

    About the object URLs: they are well formed, each resolves to a
    blob that the PNG encoder produced, the download handle is one of
    them, and there are as many as exports have succeeded. *)
Definition store_invariant (s : State Num) : Prop :=
  wf s ∧
  (∀ u b, objectURLs s !! u = Some b -> ∃ canvas, toBlob br canvas = Some b) ∧
  (∀ u, downloadUrl s = Some u -> is_Some (objectURLs s !! u)) ∧
  size (objectURLs s) = exports_succeeded s ∧
  (is_Some (downloadUrl s) ↔ 0 < exports_succeeded s).

(** And the surface holds the symbol of the current form fields. *)
Definition session_invariant (s : State Num) : Prop :=
  svgRef s = Some [preview s] ∧ store_invariant s.

(** A saved file holds an encoded PNG under a name for the label. *)
Definition saved_file_ok (f : SavedFile) : Prop :=
  (∃ png canvas, file_content f = Some png ∧ toBlob br canvas = Some png) ∧
  (∃ prefix, prefix ≠ "" ∧ file_name f = (prefix ++ "_5x3cm.png")%string).

Definition page_invariant (others : list BodyNode) (p : Page Num) : Prop :=
  session_invariant (component p) ∧ body p = others ∧
  ∀ f, In f (saved p) -> saved_file_ok f.

End PageOperations.

(* ------------------------------------------------------------------ *)
(** ** main.ts: mounting the component *)

Module Main.

Inductive ReadyState := Loading | Interactive | Complete.

(** An element with its tag, its [id] and its children. *)
Inductive Element := Elem (tag id : string) (children : list Element).

(** The position of an element below the root: child indices. *)
Abbreviation Path := (list nat).

Definition scan (f : Element -> option Path) : list Element -> nat -> option Path :=
  fix go (l : list Element) (i : nat) : option Path :=
    match l with
    | [] => None
    | c :: rest =>
        match f c with
        | Some p => Some (i :: p)
        | None => go rest (S i)
        end
    end.

(** [querySelector('#' + sel)] from the element [e]: the first element
    in document order whose [id] is [sel]. *)
Fixpoint querySelector_id (sel : string) (e : Element) : option Path :=
  match e with
  | Elem _ id children =>
      if String.eqb id sel then Some []
      else scan (querySelector_id sel) children 0
  end.

Definition children_of (e : Element) : list Element :=
  match e with Elem _ _ children => children end.

Definition tag_of (e : Element) : string :=
  match e with Elem tag _ _ => tag end.

Definition id_of (e : Element) : string :=
  match e with Elem _ id _ => id end.

Fixpoint element_at (p : Path) (e : Element) : option Element :=
  match p with
  | [] => Some e
  | i :: rest =>
      match children_of e !! i with
      | Some c => element_at rest c
      | None => None
      end
  end.

Definition is_body (e : Element) : bool :=
  String.eqb (tag_of e) "body" || String.eqb (tag_of e) "frameset".

Fixpoint index_where (P : Element -> bool) (l : list Element) (i : nat) : option nat :=
  match l with
  | [] => None
  | c :: rest => if P c then Some i else index_where P rest (S i)
  end.

Record Document := {
  readyState : ReadyState;
  documentElement : Element;        (* <html> *)
  listeners : list string;          (* event types mountBarcodeMaker listens to *)
  roots : list Path;                (* where BarcodeMaker3x5 is rendered, oldest first *)
}.

(** [document.body]: the first child of the root that is a body. *)
Definition body_index (d : Document) : option nat :=
  index_where is_body (children_of (documentElement d)) 0.

(** [e.appendChild(c)] *)
Definition appendChild (c e : Element) : Element :=
  match e with Elem tag id children => Elem tag id (children ++ [c]) end.

Definition mountBarcodeMaker (d : Document) : Result Document :=
  match querySelector_id "app" (documentElement d) with
  | Some appEl =>
      Ok {| readyState := readyState d;
            documentElement := documentElement d;
            listeners := listeners d;
            roots := roots d ++ [appEl] |}
  | None =>
      match body_index d with
      | None => Throw TypeError        (* document.body is null *)
      | Some i =>
          match children_of (documentElement d) !! i with
          | None => Throw TypeError
          | Some b =>
              let appEl := [i; length (children_of b)] in
              let html :=
                match documentElement d with
                | Elem tag id children =>
                    Elem tag id (<[i := appendChild (Elem "div" "app" []) b]> children)
                end in
              Ok {| readyState := readyState d;
                    documentElement := html;
                    listeners := listeners d;
                    roots := roots d ++ [appEl] |}
          end
      end
  end.

(** The last statement of the module. *)
Definition main (d : Document) : Result Document :=
  match readyState d with
  | Loading =>
      Ok {| readyState := readyState d;
            documentElement := documentElement d;
            listeners := listeners d ++ ["DOMContentLoaded"];
            roots := roots d |}
  | _ => mountBarcodeMaker d
  end.

(** The parser has finished and the document is [html]: the browser
    sets the ready state and calls the listeners of
    [DOMContentLoaded], in their order. *)
Fixpoint call_listeners (ls : list string) (d : Document) : Result Document :=
  match ls with
  | [] => Ok d
  | l :: rest =>
      if String.eqb l "DOMContentLoaded"
      then match mountBarcodeMaker d with
           | Ok d' => call_listeners rest d'
           | Throw e => Throw e
           end
      else call_listeners rest d
  end.

Definition fire_DOMContentLoaded (html : Element) (d : Document) : Result Document :=
  call_listeners (listeners d)
    {| readyState := Interactive;
       documentElement := html;
       listeners := listeners d;
       roots := roots d |}.

(** Induction on an element with the property known of its children. *)
Fixpoint Element_rect' (P : Element -> Prop)
  (step : ∀ tag id children, Forall P children -> P (Elem tag id children))
  (e : Element) : P e :=
  match e with
  | Elem tag id children =>
      step tag id children
        ((fix go (l : list Element) : Forall P l :=
            match l with
            | [] => @List.Forall_nil _ P
            | c :: rest =>
                @List.Forall_cons _ P c rest (Element_rect' P step c) (go rest)
            end) children)
  end.

(** The script, followed by the end of parsing with the document
    [html] when it ran while the document was still loading. *)
Definition startup (html : Element) (d : Document) : Result Document :=
  match readyState d with
  | Loading =>
      match main d with
      | Ok d1 => fire_DOMContentLoaded html d1
      | Throw e => Throw e
      end
  | _ => main d
  end.

(** A page with the mount node in its markup, and one without. *)
Definition html_with_app : Element :=
  Elem "html" "" [Elem "head" "" []; Elem "body" "" [Elem "div" "app" []]].

Definition html_without_app : Element :=
  Elem "html" "" [Elem "head" "" []; Elem "body" "" [Elem "h1" "title" []]].

Definition document_of (state : ReadyState) (html : Element) : Document :=
  {| readyState := state; documentElement := html; listeners := []; roots := [] |}.

End Main.

(** *** More browsers and states of a session *)

(** The browser of the session, with an encoder that also rejects
    empty data. *)
Definition strict_browser : Browser float :=
  {| JsBarcode := fun data opts =>
       if String.eqb data "" then None
       else JsBarcode (test_browser (Some (214, 92)%Z)) data opts;
     serializeToString := serializeToString (test_browser (Some (214, 92)%Z));
     decodeImage := decodeImage (test_browser (Some (214, 92)%Z));
     getContext2d := getContext2d (test_browser (Some (214, 92)%Z));
     drawImage_ok := drawImage_ok (test_browser (Some (214, 92)%Z));
     toBlob := toBlob (test_browser (Some (214, 92)%Z)) |}.

(** The mounted component with a format that the encoder rejects. *)
Definition rejected_state : State float :=
  {| value := "ABC-12345"; format := "EAN13"; dpi := 300%float;
     includeText := true; downloadUrl := None; error := "";
     svgRef := Some ["ABC-12345"]; objectURLs := ∅; nextURL := 0; log := [] |}.

(** The page after mounting and one export. *)
Definition exported_page : Page float :=
  session (test_browser (Some (214, 92)%Z)) [ClickExport]
    (mounted_page (test_browser (Some (214, 92)%Z)) [OtherNode "div#app"]).

(* ------------------------------------------------------------------ *)
(** ** Further evaluation on binary64 numbers *)






(* ------------------------------------------------------------------ *)
(** ** [Math.round] and the literals on binary64 numbers *)

Example round_below_half : Binary64.round 0.49999999999999994 = 0%float.
Proof. reflexivity. Qed.

Example round_half : Binary64.round 0.5 = 1%float.
Proof. reflexivity. Qed.

Example round_tie_up : Binary64.round 2.5 = 3%float.
Proof. reflexivity. Qed.

Example round_negative_tie_up : Binary64.round (-2.5) = (-2)%float.
Proof. reflexivity. Qed.

Example round_negative_zero : Binary64.round (-0.5) = (-0)%float.
Proof. reflexivity. Qed.

Example round_nan : Binary64.round nan = nan.
Proof. reflexivity. Qed.

Example round_large : Binary64.round 0x1p+60 = 0x1p+60%float.
Proof. reflexivity. Qed.

Example min_nan : Binary64.min 1 nan = nan.
Proof. reflexivity. Qed.

Example min_infinity : Binary64.min infinity 3 = 3%float.
Proof. reflexivity. Qed.

(** The literals are the binary64 values nearest to 254/100 and 4/100. *)
Example literal_2_54 :
  (Binary64.of_int 254 / Binary64.of_int 100)%float = lit_2_54.
Proof. reflexivity. Qed.

Example literal_0_04 :
  (Binary64.of_int 4 / Binary64.of_int 100)%float = lit_0_04.
Proof. reflexivity. Qed.

(* ------------------------------------------------------------------ *)
(** ** Exact arithmetic: rounding lemmas *)

Section ExactRounding.
Local Open Scope Q_scope.







End ExactRounding.

(* ------------------------------------------------------------------ *)
(** ** The pixel arithmetic *)


Section ExactGeometry.
Local Open Scope Q_scope.







End ExactGeometry.

(* ------------------------------------------------------------------ *)
(** ** [exportPNG] against the pipeline *)

(** Unfolds the operations down to functions on the state. *)
Ltac unfold_component :=
  unfold run, exportPNG, renderBarcode, rasterize,
    setError, setDownloadUrl, console_error, newBlob, createObjectURL,
    revokeObjectURL, loadImage, createCanvas, getContext, drawImage,
    canvas_toBlob, appendChild, callJsBarcode, paint, querySelector_svg;
  unfold bind, ret, throw, try_catch, get, emit,
    write_error, write_downloadUrl, write_children, write_objectURLs.

Section ExportFacts.
Context {Num : Type} `{JSNumber Num} (br : Browser Num).
Local Opaque computeCanvasPx computeGeometry.

(** With a symbol on the surface, [exportPNG] ends in the state that
    the pipeline's result determines; the snapshot handle is created
    right after the error is reset and revoked last. *)
Lemma exportPNG_run (s : State Num) (svgEl : SvgElement) (rest : list SvgElement) :
  svgRef s = Some (svgEl :: rest) ->
  ∃ mid : list (Event Num),
    run (exportPNG br) s =
    after_export br s svgEl (pipeline br (dpi s) svgEl)
      (EvRevokeObjectURL (nextURL s) :: mid ++
       [EvCreateObjectURL (nextURL s); EvNewBlob (snapshot br svgEl); EvSetError ""]).
Proof.
  intros Hs. destruct s as [v f d it du er sr urls nx lg].
  simpl in Hs. subst sr.
  unfold after_export, pipeline, snapshot, composite, background.
  unfold_component. simpl. rewrite lookup_insert_eq.
  destruct (decodeImage br _) as [[iw ih]|]; simpl.
  2:{ eexists [_; _; _]. reflexivity. }
  destruct (getContext2d br _ _); simpl.
  2:{ eexists [_; _; _; _]. reflexivity. }
  destruct (drawImage_ok br _ _); simpl.
  2:{ eexists [_; _; _; _]. reflexivity. }
  destruct (toBlob br _); simpl.
  - eexists [_; _; _; _; _]. reflexivity.
  - eexists [_; _; _; _; _]. reflexivity.
Qed.

(** Without a surface, or with an empty one, only the error changes. *)
Lemma exportPNG_unavailable (s : State Num) :
  svgRef s = None ∨ svgRef s = Some [] ->
  let msg := match svgRef s with
             | None => "No barcode to export."
             | Some _ => "SVG not found."
             end in
  run (exportPNG br) s =
    {| value := value s; format := format s; dpi := dpi s;
       includeText := includeText s; downloadUrl := downloadUrl s;
       error := msg; svgRef := svgRef s;
       objectURLs := objectURLs s; nextURL := nextURL s;
       log := [EvSetError msg; EvSetError ""] ++ log s |}.
Proof.
  intros Hs. destruct s as [v f d it du er sr urls nx lg].
  simpl in Hs. destruct Hs; subst sr; reflexivity.
Qed.

(** A surface is absent, empty, or holds a first symbol. *)
Lemma svgRef_cases (s : State Num) :
  (svgRef s = None ∨ svgRef s = Some []) ∨
  ∃ svgEl rest, svgRef s = Some (svgEl :: rest).
Proof.
  destruct (svgRef s) as [[|svgEl rest]|]; eauto.
Qed.

Lemma removeAllChildren_nil (children : list SvgElement) :
  removeAllChildren children = [].
Proof. induction children as [|c rest IH]; [reflexivity | exact IH]. Qed.

(** [renderBarcode] replaces the children of the surface by one fresh
    element, filled by the encoder unless the encoder throws. *)
Lemma renderBarcode_run (s : State Num) :
  run (renderBarcode br) s =
    match svgRef s with
    | None =>
        {| value := value s; format := format s; dpi := dpi s;
           includeText := includeText s; downloadUrl := downloadUrl s;
           error := ""; svgRef := None;
           objectURLs := objectURLs s; nextURL := nextURL s;
           log := EvSetError "" :: log s |}
    | Some _ =>
        match JsBarcode br (or_else (value s) " ") (render_options s) with
        | Some svg =>
            {| value := value s; format := format s; dpi := dpi s;
               includeText := includeText s; downloadUrl := downloadUrl s;
               error := ""; svgRef := Some [svg];
               objectURLs := objectURLs s; nextURL := nextURL s;
               log := EvSetError "" :: log s |}
        | None =>
            {| value := value s; format := format s; dpi := dpi s;
               includeText := includeText s; downloadUrl := downloadUrl s;
               error := "Unable to render barcode with the current settings.";
               svgRef := Some [""];
               objectURLs := objectURLs s; nextURL := nextURL s;
               log := EvSetError "Unable to render barcode with the current settings."
                      :: EvConsoleError :: EvSetError "" :: log s |}
        end
    end.
Proof.
  destruct s as [v f d it du er sr urls nx lg].
  unfold render_options. unfold_component. simpl.
  destruct sr as [children|]; [ | reflexivity ].
  simpl. rewrite removeAllChildren_nil. simpl.
  destruct (JsBarcode br _ _); reflexivity.
Qed.

(** *** Object URLs stay well formed *)

Lemma wf_exportPNG (s : State Num) : wf s -> wf (run (exportPNG br) s).
Proof.
  intros Hwf.
  destruct (svgRef_cases s) as [Hs | (svgEl & rest & Hs)].
  - rewrite (exportPNG_unavailable s Hs). exact Hwf.
  - destruct (exportPNG_run s svgEl rest Hs) as [mid ->].
    unfold wf in *. intros u.
    destruct (pipeline br (dpi s) svgEl) as [png | st]; simpl.
    + rewrite lookup_delete_is_Some, lookup_insert_is_Some, lookup_insert_is_Some.
      intros [_ [-> | [_ [-> | [_ Hu]]]]]; [lia | lia | ].
      specialize (Hwf u Hu). lia.
    + rewrite lookup_delete_is_Some, lookup_insert_is_Some.
      intros [_ [-> | [_ Hu]]]; [lia | ].
      specialize (Hwf u Hu). lia.
Qed.

Lemma wf_renderBarcode (s : State Num) : wf s -> wf (run (renderBarcode br) s).
Proof.
  intros Hwf. rewrite renderBarcode_run.
  destruct (svgRef s); [ destruct (JsBarcode br _ _) | ]; exact Hwf.
Qed.

(** The next URL to be handed out is not in use. *)
Lemma wf_fresh (s : State Num) : wf s -> objectURLs s !! nextURL s = None.
Proof.
  intros Hwf. destruct (objectURLs s !! nextURL s) eqn:E; [ | reflexivity ].
  assert (nextURL s < nextURL s) by (apply Hwf; eauto). lia.
Qed.

(** Revoking the snapshot restores the store of a well-formed state. *)
Lemma snapshot_released (s : State Num) (b : Blob) :
  wf s -> delete (nextURL s) (<[nextURL s := b]> (objectURLs s)) = objectURLs s.
Proof. intros Hwf. apply delete_insert_id. now apply wf_fresh. Qed.

End ExportFacts.

(* ------------------------------------------------------------------ *)
(** ** Resource handles and the error message *)

Section Handles.
Context {Num : Type} `{JSNumber Num} (br : Browser Num).

(** C7.  With the drawing surface absent ([svgRef.current] null) or
    empty (no [<svg>] below it), [exportPNG] reports "No barcode to
    export." respectively "SVG not found.", neither of which is the
    message of a failed rasterization, and it creates nothing: the
    store of object URLs, the URL counter and the download handle are
    unchanged, and the only calls made are the two [setError]s. *)
Theorem export_without_symbol (s : State Num) :
  svgRef s = None ∨ svgRef s = Some [] ->
  let s' := run (exportPNG br) s in
  (svgRef s = None -> error s' = "No barcode to export.") ∧
  (svgRef s = Some [] -> error s' = "SVG not found.") ∧
  error s' ≠ "" ∧
  error s' ≠ export_failed_msg ∧
  objectURLs s' = objectURLs s ∧
  nextURL s' = nextURL s ∧
  downloadUrl s' = downloadUrl s ∧
  log s' = [EvSetError (error s'); EvSetError ""] ++ log s.
Proof.
  intros Hs s'. subst s'. rewrite (exportPNG_unavailable br s Hs). simpl.
  destruct Hs as [-> | ->]; repeat split; try reflexivity; discriminate.
Qed.


(** C3, as the code has it.  When an attempt succeeds while a previous
    download handle [prev] exists, the download slot is overwritten
    with the new handle [S (nextURL s)], which is live and differs from
    [prev], and the snapshot handle is revoked; the previous handle is
    not revoked: it resolves to the same blob as before, and the store
    is exactly the old one with the new handle added. *)
Theorem successful_export_keeps_previous_handle (s : State Num) (prev : URL) :
  wf s ->
  downloadUrl s = Some prev ->
  is_Some (objectURLs s !! prev) ->
  error (run (exportPNG br) s) = "" ->
  let s' := run (exportPNG br) s in
  let u := nextURL s in
  downloadUrl s' = Some (S u) ∧
  S u ≠ prev ∧
  objectURLs s' !! u = None ∧
  (∃ png, objectURLs s' = <[S u := png]> (objectURLs s)) ∧
  is_Some (objectURLs s' !! prev) ∧
  objectURLs s' !! prev = objectURLs s !! prev.
Proof.
  intros Hwf Hdl Hlive Herr s' u. subst s' u. revert Herr.
  destruct (svgRef_cases s) as [Hs | (svgEl & rest & Hs)].
  { rewrite (exportPNG_unavailable br s Hs). simpl.
    destruct Hs as [-> | ->]; discriminate. }
  destruct (exportPNG_run br s svgEl rest Hs) as [mid ->].
  destruct (pipeline br (dpi s) svgEl) as [png | st]; simpl; [ | discriminate ].
  intros _. pose proof (Hwf prev Hlive) as Hlt.
  assert (Hstore :
    delete (nextURL s)
      (<[S (nextURL s) := png]> (<[nextURL s := snapshot br svgEl]> (objectURLs s)))
    = <[S (nextURL s) := png]> (objectURLs s)).
  { rewrite delete_insert_ne by lia. now rewrite snapshot_released. }
  rewrite Hstore.
  pose proof (wf_fresh s Hwf) as Hfresh.
  repeat split.
  - lia.
  - rewrite lookup_insert_ne by lia. exact Hfresh.
  - now exists png.
  - rewrite lookup_insert_ne by lia. exact Hlive.
  - rewrite lookup_insert_ne by lia. reflexivity.
Qed.






End Handles.

(* ------------------------------------------------------------------ *)
(** ** Images without extent *)

Section ZeroExtent.
Context {Num : Type} `{JSNumber Num} (br : Browser Num).
Local Opaque computeCanvasPx computeGeometry.



End ZeroExtent.

(* ------------------------------------------------------------------ *)
(** ** A session on binary64 numbers *)

Lemma wf_initial : wf initial_state.
Proof.
  intros u [b Hb]. unfold initial_state in Hb. cbn [objectURLs] in Hb.
  rewrite lookup_empty in Hb. discriminate.
Qed.

Lemma wf_rendered : wf rendered_state.
Proof. apply wf_renderBarcode, wf_initial. Qed.

Lemma wf_exported : wf exported_state.
Proof. apply wf_exportPNG, wf_rendered. Qed.


(** C3 fails: a second successful export leaves the handle of the
    first one live, next to the new one, and never revokes it. *)
Lemma previous_handle_counterexample :
  let br := test_browser (Some (214, 92)%Z) in
  let png := {| blob_type := "image/png"; blob_data := "PNG" |} in
  let s2 := run (exportPNG br) exported_state in
  downloadUrl exported_state = Some 1 ∧
  objectURLs exported_state !! 1 = Some png ∧
  error s2 = "" ∧
  downloadUrl s2 = Some 3 ∧
  objectURLs s2 !! 3 = Some png ∧
  objectURLs s2 !! 1 = Some png ∧
  ¬ In (EvRevokeObjectURL 1) (log s2).
Proof.
  vm_compute. repeat apply conj; try reflexivity.
  intros Hin. repeat (destruct Hin as [Hin | Hin]; [ discriminate | ]). exact Hin.
Qed.

(** *** The theorems at the states of the session *)




(** C7 in the mounted component before any render: the surface is empty. *)
Lemma export_without_symbol_witness :
  let br := test_browser (Some (214, 92)%Z) in
  let s' := run (exportPNG br) initial_state in
  svgRef initial_state = Some [] ∧
  error s' = "SVG not found." ∧
  objectURLs s' = objectURLs initial_state ∧
  nextURL s' = nextURL initial_state ∧
  log s' = [EvSetError (error s'); EvSetError ""] ++ log initial_state.
Proof.
  split; [ reflexivity | ].
  destruct (export_without_symbol (test_browser (Some (214, 92)%Z)) initial_state)
    as (_ & Hmsg & _ & _ & Hurls & Hnext & _ & Hlog);
    [ right; reflexivity | ].
  split; [ apply Hmsg; reflexivity | ].
  split; [ exact Hurls | ]. split; [ exact Hnext | exact Hlog ].
Defined.


(** C3 as amended, at the second of two successful exports. *)
Lemma successful_export_keeps_previous_handle_witness :
  let br := test_browser (Some (214, 92)%Z) in
  let s' := run (exportPNG br) exported_state in
  (wf exported_state ∧
   downloadUrl exported_state = Some 1 ∧
   is_Some (objectURLs exported_state !! 1) ∧
   error s' = "") ∧
  downloadUrl s' = Some 3 ∧
  objectURLs s' !! 2 = None ∧
  is_Some (objectURLs s' !! 1) ∧
  objectURLs s' !! 1 = objectURLs exported_state !! 1.
Proof.
  assert (Hlive : is_Some (objectURLs exported_state !! 1))
    by (eexists; vm_compute; reflexivity).
  assert (Herr : error (run (exportPNG (test_browser (Some (214, 92)%Z)))
                          exported_state) = "")
    by (vm_compute; reflexivity).
  split; [ split; [ exact wf_exported | split; [ reflexivity | split; assumption ] ] | ].
  destruct (successful_export_keeps_previous_handle
              (test_browser (Some (214, 92)%Z)) exported_state 1
              wf_exported eq_refl Hlive Herr)
    as (Hurl & _ & Hgone & _ & Hprev & Hsame).
  repeat apply conj; assumption.
Defined.



(* ------------------------------------------------------------------ *)
(** ** More on the pixel arithmetic *)

Section MoreGeometry.
Local Open Scope Q_scope.


















End MoreGeometry.

(* ------------------------------------------------------------------ *)
(** ** Sessions: renders, exports, downloads and form changes *)

Section Session.
Context {Num : Type} `{JSNumber Num} (br : Browser Num).
Local Opaque computeCanvasPx computeGeometry.

Lemma or_else_nonempty (v d : string) : d ≠ "" -> or_else v d ≠ "".
Proof. intros Hd. destruct v; [ exact Hd | discriminate ]. Qed.

(** A setter followed by the effect. *)
Lemma with_effect_run (handler : M Num unit) (s s1 : State Num) :
  handler s = (Ok tt, s1) ->
  run (with_effect br handler) s =
    if deps_changed s s1 then run (renderBarcode br) s1 else s1.
Proof.
  intros Hh. unfold run, with_effect, bind, get. rewrite Hh.
  destruct (deps_changed s s1); reflexivity.
Qed.

Lemma deps_unchanged (s s1 : State Num) :
  deps_changed s s1 = false ->
  value s1 = value s ∧ format s1 = format s ∧ includeText s1 = includeText s.
Proof.
  unfold deps_changed. intros Hd.
  apply orb_false_elim in Hd as [Hd Ht].
  apply orb_false_elim in Hd as [Hv Hf].
  apply negb_false_iff in Hv, Hf, Ht.
  apply String.eqb_eq in Hv, Hf. apply Bool.eqb_prop in Ht.
  auto.
Qed.

(** What a render leaves on a surface that is present. *)
Lemma renderBarcode_present (s : State Num) (children : list SvgElement) :
  svgRef s = Some children ->
  let s' := run (renderBarcode br) s in
  svgRef s' = Some [preview br s] ∧
  value s' = value s ∧ format s' = format s ∧ dpi s' = dpi s ∧
  includeText s' = includeText s ∧
  downloadUrl s' = downloadUrl s ∧
  objectURLs s' = objectURLs s ∧ nextURL s' = nextURL s ∧
  exports_succeeded s' = exports_succeeded s ∧
  (error s' = "" ↔ is_Some (JsBarcode br (or_else (value s) " ") (render_options s))).
Proof.
  intros Hs s'. subst s'. rewrite renderBarcode_run, Hs. unfold preview, exports_succeeded.
  destruct (JsBarcode br _ _) as [svg|]; cbn; repeat apply conj;
    try (intros; reflexivity); try (intros _; now eexists);
    try discriminate; intros [x Hx]; discriminate.
Qed.

(** The successful exports counted by the log, and the PNG of a
    successful one. *)
Lemma exportPNG_exports (s : State Num) :
  exports_succeeded (run (exportPNG br) s) =
    match svgRef s with
    | Some (svgEl :: _) =>
        match pipeline br (dpi s) svgEl with
        | Ready _ => S (exports_succeeded s)
        | Failed _ => exports_succeeded s
        end
    | _ => exports_succeeded s
    end.
Proof.
  destruct s as [v f d it du er sr urls nx lg].
  unfold exports_succeeded, pipeline, snapshot, composite, background.
  destruct sr as [[|svgEl rest]|]; [ reflexivity | | reflexivity ].
  unfold_component. simpl. rewrite lookup_insert_eq.
  destruct (decodeImage br _) as [[iw ih]|]; simpl; [ | reflexivity ].
  destruct (getContext2d br _ _); simpl; [ | reflexivity ].
  destruct (drawImage_ok br _ _); simpl; [ | reflexivity ].
  destruct (toBlob br _); reflexivity.
Qed.

Lemma pipeline_ready (d : Num) (svgEl : SvgElement) (png : Blob) :
  pipeline br d svgEl = Ready png -> ∃ canvas, toBlob br canvas = Some png.
Proof.
  unfold pipeline.
  destruct (decodeImage br _) as [[iw ih]|]; [ | discriminate ].
  destruct (negb _); [ discriminate | ].
  destruct (negb _); [ discriminate | ].
  destruct (toBlob br _) as [b|] eqn:E; [ | discriminate ].
  intros [= <-]. eauto.
Qed.


Lemma store_invariant_frame (s s' : State Num) :
  objectURLs s' = objectURLs s -> nextURL s' = nextURL s ->
  downloadUrl s' = downloadUrl s -> exports_succeeded s' = exports_succeeded s ->
  store_invariant br s -> store_invariant br s'.
Proof.
  intros Hu Hn Hd He. unfold store_invariant, wf.
  rewrite Hu, Hn, Hd, He. trivial.
Qed.

Lemma preview_frame (s s' : State Num) :
  value s' = value s -> format s' = format s -> includeText s' = includeText s ->
  preview br s' = preview br s.
Proof.
  intros Hv Hf Ht. unfold preview, render_options. now rewrite Hv, Hf, Ht.
Qed.

Lemma invariant_render (s : State Num) (children : list SvgElement) :
  svgRef s = Some children -> store_invariant br s ->
  session_invariant br (run (renderBarcode br) s).
Proof.
  intros Hs Hst.
  destruct (renderBarcode_present s children Hs)
    as (Href & Hv & Hf & _ & Ht & Hd & Hu & Hn & He & _).
  split.
  - rewrite Href. f_equal. f_equal. symmetry. now apply preview_frame.
  - now apply (store_invariant_frame s).
Qed.

Lemma invariant_export (s : State Num) :
  session_invariant br s -> session_invariant br (run (exportPNG br) s).
Proof.
  intros [Href (Hwf & Hlive & Hdl & Hsize & Hshown)].
  pose proof (exportPNG_exports s) as Hcount. rewrite Href in Hcount.
  destruct (exportPNG_run br s _ _ Href) as [mid Hrun].
  pose proof (wf_exportPNG br s Hwf) as Hwf'.
  pose proof (wf_fresh s Hwf) as Hfresh.
  set (s' := run (exportPNG br) s) in *.
  assert (Hsame : svgRef s' = svgRef s ∧ preview br s' = preview br s).
  { rewrite Hrun. now destruct (pipeline br (dpi s) (preview br s)). }
  destruct Hsame as [Hr Hp].
  split; [ now rewrite Hr, Hp | ].
  split; [ exact Hwf' | ].
  destruct (pipeline br (dpi s) (preview br s)) as [png | st] eqn:Hpipe.
  - assert (Hu : objectURLs s' = <[S (nextURL s) := png]> (objectURLs s)).
    { rewrite Hrun. cbn [after_export objectURLs].
      rewrite delete_insert_ne by lia. now rewrite snapshot_released. }
    assert (Hd : downloadUrl s' = Some (S (nextURL s))) by (now rewrite Hrun).
    assert (Hnext : objectURLs s !! S (nextURL s) = None).
    { destruct (objectURLs s !! S (nextURL s)) eqn:E; [ | reflexivity ].
      assert (S (nextURL s) < nextURL s) by (apply Hwf; eauto). lia. }
    rewrite Hu, Hd, Hcount.
    split.
    { intros u b. rewrite lookup_insert_Some.
      intros [[_ <-] | [_ Hb]]; [ now apply (pipeline_ready _ _ _ Hpipe) | eauto ]. }
    split.
    { intros u [= <-]. rewrite lookup_insert_eq. eauto. }
    split.
    { rewrite map_size_insert_None by exact Hnext. now rewrite Hsize. }
    split; [ intros _; lia | intros _; eauto ].
  - assert (Hu : objectURLs s' = objectURLs s).
    { rewrite Hrun. cbn [after_export objectURLs]. now apply snapshot_released. }
    assert (Hd : downloadUrl s' = downloadUrl s) by (now rewrite Hrun).
    rewrite Hu, Hd, Hcount. auto.
Qed.

Lemma invariant_change (s s1 : State Num) :
  svgRef s1 = svgRef s ->
  objectURLs s1 = objectURLs s -> nextURL s1 = nextURL s ->
  downloadUrl s1 = downloadUrl s -> exports_succeeded s1 = exports_succeeded s ->
  session_invariant br s ->
  session_invariant br (if deps_changed s s1 then run (renderBarcode br) s1 else s1).
Proof.
  intros Hr Hu Hn Hd He [Href Hst].
  assert (Hst1 : store_invariant br s1) by now apply (store_invariant_frame s).
  destruct (deps_changed s s1) eqn:Hdeps.
  - apply (invariant_render s1 [preview br s]); [ congruence | exact Hst1 ].
  - destruct (deps_unchanged s s1 Hdeps) as (Hv & Hf & Ht).
    split; [ | exact Hst1 ].
    rewrite Hr, Href. f_equal. f_equal. symmetry. now apply preview_frame.
Qed.

Lemma invariant_step (a : Action Num) (p : Page Num) :
  session_invariant br (component p) -> session_invariant br (component (step br a p)).
Proof.
  intros Hinv. destruct a; cbn [step on_component component].
  - destruct Hinv as [Href Hst]. now apply (invariant_render _ _ Href).
  - now apply invariant_export.
  - unfold handleDownload. now destruct (downloadUrl (component p)).
  - rewrite (with_effect_run (setValue v) _ _ eq_refl). now apply invariant_change.
  - rewrite (with_effect_run (setFormat f) _ _ eq_refl). now apply invariant_change.
  - rewrite (with_effect_run (setDpi d) _ _ eq_refl). now apply invariant_change.
  - rewrite (with_effect_run (setIncludeText b) _ _ eq_refl). now apply invariant_change.
Qed.

Lemma invariant_mount : session_invariant br (mount br).
Proof.
  unfold mount.
  apply (invariant_render initial_cells []); [ reflexivity | ].
  unfold store_invariant, wf, exports_succeeded. cbn.
  split; [ intros u [b Hb]; now rewrite lookup_empty in Hb | ].
  split; [ intros u b Hb; now rewrite lookup_empty in Hb | ].
  split; [ discriminate | ].
  split; [ apply map_size_empty | ].
  split; [ intros [x Hx]; discriminate | lia ].
Qed.

Lemma invariant_session (actions : list (Action Num)) (p : Page Num) :
  session_invariant br (component p) ->
  session_invariant br (component (session br actions p)).
Proof.
  revert p. induction actions as [|a rest IH]; intros p Hinv; [ exact Hinv | ].
  cbn [session fold_left]. apply IH. now apply invariant_step.
Qed.


(** X6.  On a surface that is present, whatever it held before,
    [renderBarcode] leaves exactly one element: the symbol of the
    current form fields, or an empty element when the encoder throws;
    the error is empty exactly when the encoder succeeded and is
    otherwise the render message; the form fields, the download handle
    and the object URLs are untouched, and rendering once more changes
    neither the surface nor the error. *)
Theorem render_shows_one_symbol (s : State Num) (children : list SvgElement) :
  svgRef s = Some children ->
  let s' := run (renderBarcode br) s in
  svgRef s' = Some [preview br s] ∧
  (error s' = "" ↔ is_Some (JsBarcode br (or_else (value s) " ") (render_options s))) ∧
  (error s' = "" ∨ error s' = "Unable to render barcode with the current settings.") ∧
  value s' = value s ∧ format s' = format s ∧ dpi s' = dpi s ∧
  includeText s' = includeText s ∧
  downloadUrl s' = downloadUrl s ∧
  objectURLs s' = objectURLs s ∧ nextURL s' = nextURL s ∧
  svgRef (run (renderBarcode br) s') = svgRef s' ∧
  error (run (renderBarcode br) s') = error s'.
Proof.
  intros Hs s'.
  destruct (renderBarcode_present s children Hs)
    as (Href & Hv & Hf & Hdpi & Ht & Hd & Hu & Hn & _ & Herr).
  fold s' in Href, Hv, Hf, Hdpi, Ht, Hd, Hu, Hn, Herr.
  assert (Hmsg : error s' = "" ∨
                 error s' = "Unable to render barcode with the current settings.").
  { unfold s'. rewrite renderBarcode_run, Hs.
    destruct (JsBarcode br _ _); cbn; auto. }
  assert (Hagain : svgRef (run (renderBarcode br) s') = svgRef s' ∧
                   error (run (renderBarcode br) s') = error s').
  { rewrite (renderBarcode_run br s'), Href.
    unfold render_options. rewrite Hv, Hf, Ht.
    unfold preview in *. unfold render_options in *.
    destruct (JsBarcode br _ _) as [svg|]; cbn [svgRef error default].
    - split; [ reflexivity | ]. symmetry. apply Herr. eauto.
    - split; [ reflexivity | ].
      destruct Hmsg as [Hm | Hm]; [ | now rewrite Hm ].
      apply Herr in Hm. destruct Hm as [x Hx]. discriminate. }
  destruct Hagain as [Ha1 Ha2].
  repeat apply conj; trivial; apply Herr.
Qed.

(** X7.  The encoder is never called with empty data ([value || " "]):
    two encoders that agree on all non-empty data give the same
    render. *)
Theorem render_never_encodes_empty_data (br' : Browser Num) (s : State Num) :
  (∀ data opts, data ≠ "" -> JsBarcode br' data opts = JsBarcode br data opts) ->
  run (renderBarcode br') s = run (renderBarcode br) s.
Proof.
  intros Hsame. rewrite !renderBarcode_run.
  rewrite Hsame by (apply or_else_nonempty; discriminate).
  reflexivity.
Qed.

(** X8.  After a render in which the encoder threw, the surface holds
    an empty [<svg>]; an export then does not report a missing symbol:
    it overwrites the render error, snapshots the empty element under a
    new object URL and ends as a success or as a failed export. *)
Theorem export_after_failed_render (s : State Num) (children : list SvgElement) :
  svgRef s = Some children ->
  JsBarcode br (or_else (value s) " ") (render_options s) = None ->
  let s1 := run (renderBarcode br) s in
  let s2 := run (exportPNG br) s1 in
  error s1 = "Unable to render barcode with the current settings." ∧
  svgRef s1 = Some [""] ∧
  (error s2 = "" ∨ error s2 = export_failed_msg) ∧
  In (EvNewBlob (snapshot br "")) (log s2) ∧
  In (EvCreateObjectURL (nextURL s)) (log s2).
Proof.
  intros Hs Hthrow s1 s2.
  assert (H1 : error s1 = "Unable to render barcode with the current settings." ∧
               svgRef s1 = Some [""] ∧ nextURL s1 = nextURL s).
  { unfold s1. rewrite renderBarcode_run, Hs, Hthrow. auto. }
  destruct H1 as (He1 & Hr1 & Hn1).
  split; [ exact He1 | ]. split; [ exact Hr1 | ].
  destruct (exportPNG_run br s1 "" [] Hr1) as [mid Hrun].
  fold s2 in Hrun. rewrite Hrun, Hn1.
  split; [ destruct (pipeline br (dpi s1) ""); cbn; auto | ].
  assert (Hlog : ∀ r, log (after_export br s1 "" r
                   (EvRevokeObjectURL (nextURL s) :: mid ++
                    [EvCreateObjectURL (nextURL s); EvNewBlob (snapshot br ""); EvSetError ""]))
                 = (EvRevokeObjectURL (nextURL s) :: mid ++
                    [EvCreateObjectURL (nextURL s); EvNewBlob (snapshot br ""); EvSetError ""])
                   ++ log s1) by (now intros []).
  rewrite Hlog.
  split; apply in_or_app; left; right; apply in_or_app; right; cbn; auto.
Qed.

(** Removing the node that was appended last. *)
Lemma delete_appended {A} (l : list A) (x : A) : delete (length l) (l ++ [x]) = l.
Proof. induction l as [|y l IH]; [ reflexivity | ]. cbn. f_equal. apply IH. Qed.

Lemma handleDownload_some (p : Page Num) (u : URL) :
  downloadUrl (component p) = Some u ->
  handleDownload p =
    {| component := component p;
       body := body p;
       saved :=
         saved p ++
         [{| file_name := (or_else (value (component p)) "barcode" ++ "_5x3cm.png")%string;
             file_content := objectURLs (component p) !! u |}] |}.
Proof.
  intros Hu. unfold handleDownload. rewrite Hu.
  now rewrite delete_appended.
Qed.

(** X9.  [handleDownload] does nothing without a download handle.
    With one, it saves one file, named after the current value (or
    "barcode" when the value is empty) with the suffix "_5x3cm.png" and
    holding what the handle resolves to; the anchor it appends to the
    body is removed again and the component is left as it was. *)
Theorem handleDownload_saves_current_png (p : Page Num) :
  (downloadUrl (component p) = None -> handleDownload p = p) ∧
  (∀ u, downloadUrl (component p) = Some u ->
     let p' := handleDownload p in
     component p' = component p ∧
     body p' = body p ∧
     saved p' =
       saved p ++
       [{| file_name := (or_else (value (component p)) "barcode" ++ "_5x3cm.png")%string;
           file_content := objectURLs (component p) !! u |}]).
Proof.
  split.
  - unfold handleDownload. now intros ->.
  - intros u Hu. cbv zeta. rewrite (handleDownload_some p u Hu). auto.
Qed.

(** A render touches neither the download handle nor the object URLs. *)
Lemma render_frame (s : State Num) :
  let s' := run (renderBarcode br) s in
  downloadUrl s' = downloadUrl s ∧ objectURLs s' = objectURLs s ∧
  value s' = value s.
Proof.
  cbv zeta. rewrite renderBarcode_run.
  destruct (svgRef s); [ destruct (JsBarcode br _ _) | ]; auto.
Qed.

Lemma change_frame (s s1 : State Num) :
  downloadUrl s1 = downloadUrl s -> objectURLs s1 = objectURLs s ->
  let s' := if deps_changed s s1 then run (renderBarcode br) s1 else s1 in
  downloadUrl s' = downloadUrl s ∧ objectURLs s' = objectURLs s ∧
  value s' = value s1.
Proof.
  intros Hd Hu. cbv zeta.
  destruct (deps_changed s s1); [ | auto ].
  destruct (render_frame s1) as (Hd' & Hu' & Hv').
  rewrite Hd', Hu', Hv'. auto.
Qed.

Lemma deps_same (s : State Num) : deps_changed s s = false.
Proof.
  unfold deps_changed. now rewrite !String.eqb_refl, Bool.eqb_reflx.
Qed.

(** X10.  In every state reached from the mounted page, a download
    handle resolves to a live blob, and that blob came out of the PNG
    encoder (never the SVG snapshot). *)
Theorem download_handle_never_dangles
  (actions : list (Action Num)) (others : list BodyNode) :
  let s := component (session br actions (mounted_page br others)) in
  ∀ u, downloadUrl s = Some u ->
    ∃ png canvas, objectURLs s !! u = Some png ∧ toBlob br canvas = Some png.
Proof.
  intros s u Hu.
  destruct (invariant_session actions (mounted_page br others) invariant_mount)
    as (_ & _ & Hlive & Hdl & _).
  fold s in Hlive, Hdl.
  destruct (Hdl u Hu) as [png Hpng].
  destruct (Hlive u png Hpng) as [canvas Hc]. eauto.
Qed.

(** X11.  In every state reached from the mounted page, the surface
    holds exactly one element, the symbol of the current value, format
    and text option (empty when the encoder rejects them). *)
Theorem preview_follows_form
  (actions : list (Action Num)) (others : list BodyNode) :
  let s := component (session br actions (mounted_page br others)) in
  svgRef s = Some [preview br s].
Proof.
  apply (invariant_session actions (mounted_page br others) invariant_mount).
Qed.



(** X14.  No action other than an export changes the download handle,
    the object URLs or the PNG behind the handle: after a change of the
    form or a new render, the download is still the PNG of the earlier
    export. *)
Theorem only_export_changes_download (a : Action Num) (p : Page Num) :
  a ≠ ClickExport ->
  let s := component p in
  let s' := component (step br a p) in
  downloadUrl s' = downloadUrl s ∧ objectURLs s' = objectURLs s ∧
  download s' = download s.
Proof.
  intros Ha s s'. subst s s'.
  assert (Hgoal : downloadUrl (component (step br a p)) = downloadUrl (component p) ∧
                  objectURLs (component (step br a p)) = objectURLs (component p)).
  { destruct a; cbn [step on_component component].
    - destruct (render_frame (component p)) as (Hd & Hu & _). auto.
    - now contradict Ha.
    - unfold handleDownload.
      destruct (downloadUrl (component p)) eqn:E; cbn [component]; rewrite ?E; auto.
    - rewrite (with_effect_run (setValue v) _ _ eq_refl).
      now destruct (change_frame (component p) (setValue v (component p)).2 eq_refl eq_refl)
        as (Hd & Hu & _).
    - rewrite (with_effect_run (setFormat f) _ _ eq_refl).
      now destruct (change_frame (component p) (setFormat f (component p)).2 eq_refl eq_refl)
        as (Hd & Hu & _).
    - rewrite (with_effect_run (setDpi d) _ _ eq_refl).
      now destruct (change_frame (component p) (setDpi d (component p)).2 eq_refl eq_refl)
        as (Hd & Hu & _).
    - rewrite (with_effect_run (setIncludeText b) _ _ eq_refl).
      now destruct (change_frame (component p) (setIncludeText b (component p)).2
                      eq_refl eq_refl) as (Hd & Hu & _). }
  destruct Hgoal as [Hd Hu]. unfold download. now rewrite Hd, Hu.
Qed.

(** X15.  The name of a download follows the form, not the export:
    after the value is changed to [v], a download saves the blob that
    the handle resolved to before the change, under the name of [v]. *)
Theorem download_named_after_current_value (p : Page Num) (v : string) (u : URL) :
  downloadUrl (component p) = Some u ->
  saved (session br [ChangeValue v; ClickDownload] p) =
    saved p ++
    [{| file_name := (or_else v "barcode" ++ "_5x3cm.png")%string;
        file_content := objectURLs (component p) !! u |}].
Proof.
  intros Hu. cbn [session fold_left].
  set (p1 := step br (ChangeValue v) p).
  assert (H1 : downloadUrl (component p1) = Some u ∧
               objectURLs (component p1) = objectURLs (component p) ∧
               value (component p1) = v ∧ saved p1 = saved p).
  { unfold p1. cbn [step on_component component saved].
    rewrite (with_effect_run (setValue v) (component p) (setValue v (component p)).2 eq_refl).
    destruct (change_frame (component p) (setValue v (component p)).2 eq_refl eq_refl)
      as (Hd & Hs & Hv).
    rewrite Hd, Hs, Hv. auto. }
  destruct H1 as (Hd1 & Hs1 & Hv1 & Hsv1).
  cbn [step].
  rewrite (handleDownload_some p1 u Hd1). cbn [saved].
  rewrite Hs1, Hv1, Hsv1. reflexivity.
Qed.

(** X16.  Changing the DPI field changes the [dpi] cell and nothing
    else: no render is triggered, and a pending error message, the
    surface, the download handle and the log stay as they are. *)
Theorem dpi_change_touches_only_dpi (p : Page Num) (d : Num) :
  let s := component p in
  let s' := component (step br (ChangeDpi d) p) in
  dpi s' = d ∧
  value s' = value s ∧ format s' = format s ∧ includeText s' = includeText s ∧
  error s' = error s ∧ svgRef s' = svgRef s ∧
  downloadUrl s' = downloadUrl s ∧ objectURLs s' = objectURLs s ∧
  nextURL s' = nextURL s ∧ log s' = log s.
Proof.
  cbv zeta. cbn [step on_component component].
  rewrite (with_effect_run (setDpi d) (component p) (setDpi d (component p)).2 eq_refl).
  assert (Hd : deps_changed (component p) (setDpi d (component p)).2 = false).
  { unfold deps_changed. cbn. now rewrite !String.eqb_refl, Bool.eqb_reflx. }
  rewrite Hd. cbn. repeat apply conj; reflexivity.
Qed.


Lemma page_invariant_step (others : list BodyNode) (a : Action Num) (p : Page Num) :
  page_invariant br others p -> page_invariant br others (step br a p).
Proof.
  intros (Hinv & Hbody & Hsaved).
  split; [ now apply invariant_step | ].
  destruct a; cbn [step on_component body saved]; try (split; assumption).
  destruct (downloadUrl (component p)) as [u|] eqn:Hu.
  - rewrite (handleDownload_some p u Hu). cbn [body saved].
    split; [ exact Hbody | ].
    intros f Hf. apply in_app_or in Hf as [Hf | [<- | []]].
    + now apply Hsaved.
    + destruct Hinv as (_ & _ & Hlive & Hdl & _).
      destruct (Hdl u Hu) as [png Hpng].
      destruct (Hlive u png Hpng) as [canvas Hc].
      split; cbn [file_content file_name].
      * exists png, canvas. auto.
      * exists (or_else (value (component p)) "barcode").
        split; [ apply or_else_nonempty; discriminate | reflexivity ].
  - unfold handleDownload. rewrite Hu. auto.
Qed.

Lemma page_invariant_session (others : list BodyNode)
  (actions : list (Action Num)) (p : Page Num) :
  page_invariant br others p -> page_invariant br others (session br actions p).
Proof.
  revert p. induction actions as [|a rest IH]; intros p Hinv; [ exact Hinv | ].
  cbn [session fold_left]. apply IH. now apply page_invariant_step.
Qed.

(** X17.  Throughout a session from the mounted page the body of the
    document is as it was, and every file that was saved holds a blob
    from the PNG encoder under a name that is a non-empty prefix
    followed by "_5x3cm.png". *)
Theorem saved_files_are_exported_pngs
  (actions : list (Action Num)) (others : list BodyNode) :
  let p := session br actions (mounted_page br others) in
  body p = others ∧
  ∀ f, In f (saved p) ->
    (∃ png canvas, file_content f = Some png ∧ toBlob br canvas = Some png) ∧
    (∃ prefix, prefix ≠ "" ∧ file_name f = (prefix ++ "_5x3cm.png")%string).
Proof.
  intros p.
  assert (Hp : page_invariant br others p).
  { apply page_invariant_session.
    split; [ apply invariant_mount | ]. split; [ reflexivity | intros f [] ]. }
  destruct Hp as (_ & Hb & Hs). auto.
Qed.

End Session.

(* ------------------------------------------------------------------ *)
(** ** main.ts: where the component is rendered *)

Section MainFacts.
Import Main.

Lemma scan_Some (f : Element -> option Path) (l : list Element) (i : nat) (p : Path) :
  scan f l i = Some p ->
  ∃ k q c, p = (i + k) :: q ∧ l !! k = Some c ∧ f c = Some q ∧
           ∀ j c', j < k -> l !! j = Some c' -> f c' = None.
Proof.
  revert i. induction l as [|c rest IH]; intros i; cbn; [ discriminate | ].
  destruct (f c) as [q|] eqn:Ec.
  - intros [= <-]. exists 0, q, c. rewrite Nat.add_0_r.
    repeat split; trivial. intros j c' Hj. lia.
  - intros Hrest. destruct (IH _ Hrest) as (k & q & c0 & -> & Hk & Hq & Hfirst).
    exists (S k), q, c0. repeat split; trivial; [ f_equal; lia | ].
    intros [|j] c' Hj; cbn; [ now intros [= <-] | ].
    intros Hj'. apply (Hfirst j); [ lia | exact Hj' ].
Qed.

Lemma scan_None (f : Element -> option Path) (l : list Element) (i : nat) :
  scan f l i = None <-> ∀ k c, l !! k = Some c -> f c = None.
Proof.
  revert i. induction l as [|c rest IH]; intros i; cbn.
  - split; [ intros _ k c' Hk; now destruct k | reflexivity ].
  - destruct (f c) as [q|] eqn:Ec.
    + split; [ discriminate | intros Hall ].
      specialize (Hall 0 c eq_refl). congruence.
    + rewrite IH. split.
      * intros Hall [|k] c'; cbn; [ now intros [= <-] | apply Hall ].
      * intros Hall k c' Hk. apply (Hall (S k)). exact Hk.
Qed.

Lemma scan_app_last (f : Element -> option Path) (l : list Element) (x : Element) (i : nat) :
  scan f l i = None ->
  scan f (l ++ [x]) i =
    match f x with Some p => Some ((i + length l) :: p) | None => None end.
Proof.
  revert i. induction l as [|c rest IH]; intros i; cbn.
  - intros _. rewrite Nat.add_0_r. now destruct (f x).
  - destruct (f c); [ discriminate | ]. intros Hrest.
    rewrite (IH _ Hrest). destruct (f x); [ | reflexivity ].
    do 2 f_equal. lia.
Qed.

Lemma scan_insert (f : Element -> option Path) (l : list Element)
  (k : nat) (b b' : Element) (i : nat) :
  scan f l i = None -> l !! k = Some b ->
  scan f (<[k := b']> l) i =
    match f b' with Some p => Some ((i + k) :: p) | None => None end.
Proof.
  revert i k. induction l as [|c rest IH]; intros i k; [ now destruct k | ].
  cbn. destruct (f c) eqn:Ec; [ discriminate | ]. intros Hrest.
  destruct k as [|k]; cbn.
  - intros _. rewrite Nat.add_0_r. now destruct (f b').
  - intros Hk. rewrite Ec.
    transitivity (match f b' with Some p => Some ((S i + k) :: p) | None => None end);
      [ exact (IH _ _ Hrest Hk) | ].
    destruct (f b'); [ | reflexivity ]. do 2 f_equal. lia.
Qed.

Lemma index_where_Some (P : Element -> bool) (l : list Element) (i j : nat) :
  index_where P l i = Some j ->
  ∃ k b, j = i + k ∧ l !! k = Some b ∧ P b = true.
Proof.
  revert i. induction l as [|c rest IH]; intros i; cbn; [ discriminate | ].
  destruct (P c) eqn:Ec.
  - intros [= <-]. exists 0, c. rewrite Nat.add_0_r. auto.
  - intros Hrest. destruct (IH _ Hrest) as (k & b & -> & Hk & Hb).
    exists (S k), b. repeat split; trivial. lia.
Qed.

(** The selector returns the position of an element with that [id]. *)
Lemma querySelector_id_sound (sel : string) (e : Element) :
  ∀ p, querySelector_id sel e = Some p ->
       ∃ x, element_at p e = Some x ∧ id_of x = sel.
Proof.
  induction e as [tag id children IH] using Element_rect'.
  intros p. cbn [querySelector_id].
  destruct (String.eqb id sel) eqn:E.
  - intros [= <-]. exists (Elem tag id children).
    split; [ reflexivity | now apply String.eqb_eq ].
  - intros Hscan.
    destruct (scan_Some _ _ _ _ Hscan) as (k & q & c & -> & Hk & Hq & _).
    cbn [element_at children_of Nat.add]. rewrite Hk.
    rewrite Forall_lookup in IH. exact (IH k c Hk q Hq).
Qed.

Lemma element_at_root_insert (tag id : string) (children : list Element)
  (i : nat) (b b' : Element) (p : Path) (e : Element) :
  children !! i = Some b ->
  (∀ q x, element_at q b = Some x ->
          ∃ x', element_at q b' = Some x' ∧ tag_of x' = tag_of x ∧ id_of x' = id_of x) ->
  element_at p (Elem tag id children) = Some e ->
  ∃ e', element_at p (Elem tag id (<[i := b']> children)) = Some e' ∧
        tag_of e' = tag_of e ∧ id_of e' = id_of e.
Proof.
  intros Hb Hsub. destruct p as [|j q]; cbn [element_at children_of].
  - intros [= <-]. eexists. split; [ reflexivity | auto ].
  - destruct (decide (j = i)) as [-> | Hne].
    + rewrite Hb, list_lookup_insert_eq by (eapply lookup_lt_Some; exact Hb).
      apply Hsub.
    + rewrite list_lookup_insert_ne by congruence.
      destruct (children !! j); [ | discriminate ]. eauto.
Qed.

Lemma element_at_appendChild (c b : Element) (q : Path) (x : Element) :
  element_at q b = Some x ->
  ∃ x', element_at q (appendChild c b) = Some x' ∧
        tag_of x' = tag_of x ∧ id_of x' = id_of x.
Proof.
  destruct b as [tag id children]. destruct q as [|k r]; cbn [element_at children_of appendChild].
  - intros [= <-]. eexists. split; [ reflexivity | auto ].
  - destruct (children !! k) as [y|] eqn:Hk; [ | discriminate ].
    rewrite (lookup_app_l_Some _ _ _ _ Hk). eauto.
Qed.


(** X19.  When no element has the id "app", [mountBarcodeMaker]
    throws if the document has no body; otherwise it appends an empty
    [<div id="app">] as the last child of the body and renders the
    component there: the selector now finds that element, and every
    element that existed keeps its position, tag and id. *)
Theorem mount_creates_app_when_absent (d : Document) :
  querySelector_id "app" (documentElement d) = None ->
  match body_index d with
  | None => mountBarcodeMaker d = Throw TypeError
  | Some i =>
      ∃ b d',
        children_of (documentElement d) !! i = Some b ∧
        is_body b = true ∧
        mountBarcodeMaker d = Ok d' ∧
        let appEl := [i; length (children_of b)] in
        roots d' = roots d ++ [appEl] ∧
        readyState d' = readyState d ∧ listeners d' = listeners d ∧
        children_of (documentElement d') !! i =
          Some (appendChild (Elem "div" "app" []) b) ∧
        element_at appEl (documentElement d') = Some (Elem "div" "app" []) ∧
        querySelector_id "app" (documentElement d') = Some appEl ∧
        ∀ p e, element_at p (documentElement d) = Some e ->
          ∃ e', element_at p (documentElement d') = Some e' ∧
                tag_of e' = tag_of e ∧ id_of e' = id_of e
  end.
Proof.
  intros Hq. unfold mountBarcodeMaker. rewrite Hq.
  destruct (body_index d) as [i|] eqn:Hbody; [ | reflexivity ].
  unfold body_index in Hbody.
  destruct (index_where_Some _ _ _ _ Hbody) as (k & b & -> & Hb & Hisbody).
  cbn [Nat.add]. rewrite Hb.
  destruct (documentElement d) as [tag id children] eqn:Hhtml.
  cbn [children_of] in Hb.
  cbn [querySelector_id] in Hq.
  destruct (String.eqb id "app") eqn:Hid; [ discriminate | ].
  pose proof Hq as Hnone. rewrite scan_None in Hnone.
  pose proof (Hnone k b Hb) as Hqb.
  destruct b as [btag bid bchildren] eqn:Eb.
  cbn [querySelector_id] in Hqb.
  destruct (String.eqb bid "app") eqn:Hbid; [ discriminate | ].
  eexists _, _. split; [ reflexivity | ]. split; [ exact Hisbody | ].
  split; [ reflexivity | ].
  cbn [roots readyState listeners documentElement children_of appendChild].
  assert (Hlt : k < length children) by (eapply lookup_lt_Some; exact Hb).
  repeat apply conj; try reflexivity.
  - now rewrite list_lookup_insert_eq.
  - cbn [element_at children_of]. rewrite list_lookup_insert_eq by exact Hlt.
    cbn [element_at children_of]. now rewrite lookup_app_r, Nat.sub_diag.
  - cbn [querySelector_id]. rewrite Hid.
    rewrite (scan_insert _ _ _ _ _ _ Hq Hb).
    cbn [querySelector_id]. rewrite Hbid.
    rewrite (scan_app_last _ _ _ _ Hqb). reflexivity.
  - intros p e. apply (element_at_root_insert _ _ _ _ _ _ _ _ Hb).
    intros q x. apply (element_at_appendChild (Elem "div" "app" [])).
Qed.

(** A mount that returns has rendered the component once more, in an
    element with the id "app" that the selector finds. *)
Lemma mountBarcodeMaker_ok (d d' : Document) :
  mountBarcodeMaker d = Ok d' ->
  ∃ appEl e,
    roots d' = roots d ++ [appEl] ∧
    querySelector_id "app" (documentElement d') = Some appEl ∧
    element_at appEl (documentElement d') = Some e ∧ id_of e = "app".
Proof.
  unfold mountBarcodeMaker.
  destruct (querySelector_id "app" (documentElement d)) as [appEl|] eqn:Hq.
  - intros [= <-]. cbn [roots documentElement].
    destruct (querySelector_id_sound _ _ _ Hq) as (e & He & Hid).
    exists appEl, e. auto.
  - destruct (body_index d) as [i|] eqn:Hbody; [ | discriminate ].
    unfold body_index in Hbody.
    destruct (index_where_Some _ _ _ _ Hbody) as (k & b & -> & Hb & _).
    cbn [Nat.add]. rewrite Hb.
    destruct (documentElement d) as [tag id children] eqn:Hhtml.
    cbn [children_of] in Hb. cbn [querySelector_id] in Hq.
    destruct (String.eqb id "app") eqn:Hid; [ discriminate | ].
    pose proof Hq as Hnone. rewrite scan_None in Hnone.
    pose proof (Hnone k b Hb) as Hqb.
    destruct b as [btag bid bchildren].
    cbn [querySelector_id] in Hqb.
    destruct (String.eqb bid "app") eqn:Hbid; [ discriminate | ].
    intros [= <-]. cbn [roots documentElement children_of appendChild].
    assert (Hfound :
      querySelector_id "app"
        (Elem tag id (<[k := Elem btag bid (bchildren ++ [Elem "div" "app" []])]> children))
      = Some [k; length bchildren]).
    { cbn [querySelector_id]. rewrite Hid.
      rewrite (scan_insert _ _ _ _ _ _ Hq Hb).
      cbn [querySelector_id]. rewrite Hbid.
      now rewrite (scan_app_last _ _ _ _ Hqb). }
    destruct (querySelector_id_sound _ _ _ Hfound) as (e & He & Hide).
    exists [k; length bchildren], e. auto.
Qed.

(** X20.  Started on a document without listeners and without a
    rendered component, the script renders the component exactly once,
    in an element with the id "app" of the document as it then is:
    immediately when the document is no longer loading, and otherwise
    only when [DOMContentLoaded] fires, nothing being rendered or added
    to the document before. *)
Theorem component_is_mounted_once (d d' : Document) (html : Element) :
  listeners d = [] -> roots d = [] ->
  startup html d = Ok d' ->
  (∃ appEl e,
     roots d' = [appEl] ∧
     querySelector_id "app" (documentElement d') = Some appEl ∧
     element_at appEl (documentElement d') = Some e ∧ id_of e = "app") ∧
  (readyState d = Loading ->
   main d = Ok {| readyState := Loading;
                  documentElement := documentElement d;
                  listeners := ["DOMContentLoaded"];
                  roots := [] |}) ∧
  (readyState d ≠ Loading -> main d = mountBarcodeMaker d).
Proof.
  intros Hl Hr. unfold startup, main.
  destruct (readyState d) eqn:Hstate.
  - unfold fire_DOMContentLoaded. cbn [listeners roots]. rewrite Hl, Hr.
    cbn [app call_listeners String.eqb Ascii.eqb Bool.eqb].
    destruct (mountBarcodeMaker _) as [d1|] eqn:Hm; [ | discriminate ].
    intros [= <-].
    destruct (mountBarcodeMaker_ok _ _ Hm) as (appEl & e & Hroots & Hq & He & Hid).
    cbn [roots app] in Hroots.
    split; [ exists appEl, e; auto | ].
    split; [ reflexivity | intros Hne; now contradict Hne ].
  - intros Hm.
    destruct (mountBarcodeMaker_ok _ _ Hm) as (appEl & e & Hroots & Hq & He & Hid).
    rewrite Hr in Hroots.
    split; [ exists appEl, e; auto | ].
    split; [ discriminate | reflexivity ].
  - intros Hm.
    destruct (mountBarcodeMaker_ok _ _ Hm) as (appEl & e & Hroots & Hq & He & Hid).
    rewrite Hr in Hroots.
    split; [ exists appEl, e; auto | ].
    split; [ discriminate | reflexivity ].
Qed.

End MainFacts.

(* ------------------------------------------------------------------ *)
(** ** The further theorems at concrete inputs *)






(** X6 for the first render of the mounted component. *)
Lemma render_shows_one_symbol_witness :
  let br := test_browser (Some (214, 92)%Z) in
  let s' := run (renderBarcode br) initial_state in
  svgRef initial_state = Some [] ∧
  svgRef s' = Some ["ABC-12345"] ∧ error s' = "" ∧
  svgRef (run (renderBarcode br) s') = svgRef s'.
Proof.
  split; [ reflexivity | ].
  destruct (render_shows_one_symbol (test_browser (Some (214, 92)%Z)) initial_state []
              eq_refl) as (Href & Herr & _ & _ & _ & _ & _ & _ & _ & _ & Hagain & _).
  split; [ exact Href | ].
  split; [ apply Herr; now eexists | exact Hagain ].
Defined.

(** X7 for an encoder that rejects empty data. *)
Lemma render_never_encodes_empty_data_witness :
  (∀ data opts, data ≠ "" ->
     JsBarcode strict_browser data opts =
     JsBarcode (test_browser (Some (214, 92)%Z)) data opts) ∧
  run (renderBarcode strict_browser) initial_state =
  run (renderBarcode (test_browser (Some (214, 92)%Z))) initial_state.
Proof.
  assert (Hsame : ∀ data opts, data ≠ "" ->
            JsBarcode strict_browser data opts =
            JsBarcode (test_browser (Some (214, 92)%Z)) data opts).
  { intros data opts Hne. destruct data; [ now contradict Hne | reflexivity ]. }
  split; [ exact Hsame | ].
  exact (render_never_encodes_empty_data (test_browser (Some (214, 92)%Z))
           strict_browser initial_state Hsame).
Defined.

(** X8 for the format EAN13, which the encoder rejects. *)
Lemma export_after_failed_render_witness :
  let br := test_browser (Some (214, 92)%Z) in
  let s1 := run (renderBarcode br) rejected_state in
  let s2 := run (exportPNG br) s1 in
  (svgRef rejected_state = Some ["ABC-12345"] ∧
   JsBarcode br (or_else (value rejected_state) " ") (render_options rejected_state)
     = None) ∧
  svgRef s1 = Some [""] ∧
  (error s2 = "" ∨ error s2 = export_failed_msg) ∧
  In (EvNewBlob (snapshot br "")) (log s2).
Proof.
  split; [ split; reflexivity | ].
  destruct (export_after_failed_render (test_browser (Some (214, 92)%Z)) rejected_state
              ["ABC-12345"] eq_refl eq_refl) as (_ & Href & Herr & Hblob & _).
  repeat apply conj; assumption.
Defined.

(** X9 on the page after one export. *)
Lemma handleDownload_saves_current_png_witness :
  downloadUrl (component exported_page) = Some 1 ∧
  saved (handleDownload exported_page) =
    [{| file_name := "ABC-12345_5x3cm.png";
        file_content := Some {| blob_type := "image/png"; blob_data := "PNG" |} |}] ∧
  body (handleDownload exported_page) = [OtherNode "div#app"].
Proof.
  assert (Hu : downloadUrl (component exported_page) = Some 1)
    by (vm_compute; reflexivity).
  split; [ exact Hu | ].
  destruct (handleDownload_saves_current_png exported_page) as [_ Hsome].
  destruct (Hsome 1 Hu) as (_ & Hbody & Hsaved).
  vm_compute in Hbody, Hsaved |- *.
  split; [ exact Hsaved | exact Hbody ].
Defined.

(** X10 after one export. *)
Lemma download_handle_never_dangles_witness :
  let br := test_browser (Some (214, 92)%Z) in
  let s := component (session br [ClickExport] (mounted_page br [])) in
  downloadUrl s = Some 1 ∧
  ∃ png canvas, objectURLs s !! 1 = Some png ∧ toBlob br canvas = Some png.
Proof.
  assert (Hu : downloadUrl (component (session (test_browser (Some (214, 92)%Z))
                  [ClickExport] (mounted_page (test_browser (Some (214, 92)%Z)) [])))
               = Some 1) by (vm_compute; reflexivity).
  split; [ exact Hu | ].
  exact (download_handle_never_dangles (test_browser (Some (214, 92)%Z))
           [ClickExport] [] 1 Hu).
Defined.

(** X14 for a change of the value after an export. *)
Lemma only_export_changes_download_witness :
  let br := test_browser (Some (214, 92)%Z) in
  ChangeValue "XYZ" ≠ (ClickExport : Action float) ∧
  download (component (step br (ChangeValue "XYZ") exported_page)) =
  download (component exported_page).
Proof.
  assert (Hne : ChangeValue "XYZ" ≠ (ClickExport : Action float)) by discriminate.
  split; [ exact Hne | ].
  destruct (only_export_changes_download (test_browser (Some (214, 92)%Z))
              (ChangeValue "XYZ") exported_page Hne) as (_ & _ & Hsame).
  exact Hsame.
Defined.

(** X15 for a change of the value after an export. *)
Lemma download_named_after_current_value_witness :
  let br := test_browser (Some (214, 92)%Z) in
  downloadUrl (component exported_page) = Some 1 ∧
  saved (session br [ChangeValue "XYZ"; ClickDownload] exported_page) =
    [{| file_name := "XYZ_5x3cm.png";
        file_content := Some {| blob_type := "image/png"; blob_data := "PNG" |} |}].
Proof.
  assert (Hu : downloadUrl (component exported_page) = Some 1)
    by (vm_compute; reflexivity).
  split; [ exact Hu | ].
  pose proof (download_named_after_current_value (test_browser (Some (214, 92)%Z))
                exported_page "XYZ" 1 Hu) as Hsaved.
  vm_compute in Hsaved |- *. exact Hsaved.
Defined.

(** X17 after an export and a download. *)
Lemma saved_files_are_exported_pngs_witness :
  let br := test_browser (Some (214, 92)%Z) in
  let p := session br [ClickExport; ClickDownload] (mounted_page br []) in
  let f := {| file_name := "ABC-12345_5x3cm.png";
              file_content := Some {| blob_type := "image/png"; blob_data := "PNG" |} |} in
  In f (saved p) ∧
  ∃ prefix, prefix ≠ "" ∧ file_name f = (prefix ++ "_5x3cm.png")%string.
Proof.
  assert (Hin : In {| file_name := "ABC-12345_5x3cm.png";
                      file_content := Some {| blob_type := "image/png";
                                              blob_data := "PNG" |} |}
                  (saved (session (test_browser (Some (214, 92)%Z))
                            [ClickExport; ClickDownload]
                            (mounted_page (test_browser (Some (214, 92)%Z)) []))))
    by (vm_compute; left; reflexivity).
  split; [ exact Hin | ].
  destruct (saved_files_are_exported_pngs (test_browser (Some (214, 92)%Z))
              [ClickExport; ClickDownload] []) as [_ Hfiles].
  exact (proj2 (Hfiles _ Hin)).
Defined.


(** X19 for a page without the mount node. *)
Lemma mount_creates_app_when_absent_witness :
  let d := Main.document_of Main.Complete Main.html_without_app in
  Main.querySelector_id "app" (Main.documentElement d) = None ∧
  ∃ d', Main.mountBarcodeMaker d = Ok d' ∧
        Main.roots d' = [[1; 1]] ∧
        Main.querySelector_id "app" (Main.documentElement d') = Some [1; 1].
Proof.
  split; [ reflexivity | ].
  pose proof (mount_creates_app_when_absent
                (Main.document_of Main.Complete Main.html_without_app) eq_refl) as Hm.
  change (Main.body_index (Main.document_of Main.Complete Main.html_without_app))
    with (Some 1) in Hm.
  destruct Hm as (b & d' & Hb & _ & Hmount & Hroots & _ & _ & _ & _ & Hq & _).
  injection Hb as <-.
  exists d'. repeat apply conj; assumption.
Defined.

(** X20 for a script that runs while the document is loading, the
    mount node being parsed later. *)
Lemma component_is_mounted_once_witness :
  let d := Main.document_of Main.Loading Main.html_without_app in
  let d' := {| Main.readyState := Main.Interactive;
               Main.documentElement := Main.html_with_app;
               Main.listeners := ["DOMContentLoaded"];
               Main.roots := [[1; 0]] |} in
  (Main.listeners d = [] ∧ Main.roots d = [] ∧
   Main.startup Main.html_with_app d = Ok d') ∧
  ∃ appEl e,
    Main.roots d' = [appEl] ∧
    Main.querySelector_id "app" (Main.documentElement d') = Some appEl ∧
    Main.element_at appEl (Main.documentElement d') = Some e ∧ Main.id_of e = "app".
Proof.
  split; [ repeat apply conj; reflexivity | ].
  exact (proj1 (component_is_mounted_once
                  (Main.document_of Main.Loading Main.html_without_app) _
                  Main.html_with_app eq_refl eq_refl eq_refl)).
Defined.
